(** * Solar PV dashboard: derived metrics and exporter cycles

    A shallow embedding of the arithmetic and of the gauge-updating code of

      - [src/app/prometheus_exporter.py]                      (batch exporter)
      - [src/app/dashboard.py]                                (energy split)
      - [src/examples/live-ingestion-api/dashboard_live.py]   (live dashboard)
      - [src/examples/live-ingestion-api/exporter_live.py]    (live exporter)

    Python floats are idealised: the weather heuristic, which needs [sin]
    and [pi], is written over the real numbers [R]; the batch exporter, whose
    arithmetic is rational, is written over [Q] so that it evaluates.
    Decimal literals stand for the decimal fractions they denote
    ([0.40] is [2/5]); rounding, NaN and infinities are outside the model.
    Integer columns of the batch file are 64-bit integers and keep their
    wrap-around. *)

From Stdlib Require Import Reals Lra Lia ZArith QArith String Ascii List.
From stdpp Require Import gmap strings list fin_maps.
From stdpp Require Import sorting pretty.

(* ===================================================================== *)
(** ** The weather-driven estimate, live dashboard variant               *)
(* ===================================================================== *)

Module DashboardLive.
Local Open Scope R_scope.

(** The [time_of_day] argument is a [datetime]; the function reads its
    [hour] and [minute] attributes, both integers. *)
Record datetime := { dt_hour : Z; dt_minute : Z }.

(** [hour = time_of_day.hour + time_of_day.minute / 60] *)
Definition hour_of (time_of_day : datetime) : R :=
  IZR (dt_hour time_of_day) + IZR (dt_minute time_of_day) / 60.

(** The [if 6 <= hour <= 20: ... else: time_factor = 0] block. *)
Definition time_factor (hour : R) : R :=
  if Rle_dec 6 hour then
    if Rle_dec hour 20 then Rabs (sin ((hour - 6) * PI / 14)) else 0
  else 0.

Definition max_power : R := 5.0.

Definition calculate_estimated_solar_power
    (cloud_cover uv_index : R) (time_of_day : datetime) (temp : R) : R :=
  let cloud_factor := (100 - cloud_cover) / 100 in
  let uv_factor := Rmin (uv_index / 10) 1.0 in
  let hour := hour_of time_of_day in
  let time_factor := time_factor hour in
  let temp_factor := 1 - (Rmax 0 (temp - 25) * 0.005) in
  let estimated_power :=
    max_power * cloud_factor * uv_factor * time_factor * temp_factor in
  Rmax 0 estimated_power.

(** The keyword default [temp=25]. *)
Definition default_temp : R := 25.

End DashboardLive.

(* ===================================================================== *)
(** ** The weather-driven estimate, live exporter variant                *)
(* ===================================================================== *)

Module ExporterLive.
Local Open Scope R_scope.

(** [current_hour] is [datetime.now().hour], an integer. *)
Definition time_factor (current_hour : Z) : R :=
  if Z_le_dec 6 current_hour then
    if Z_le_dec current_hour 20
    then Rabs (sin ((IZR current_hour - 6) * PI / 14)) else 0
  else 0.

Definition max_power : R := 5000.

Definition calculate_estimated_solar_power
    (cloud_cover uv_index : R) (current_hour : Z) : R :=
  let cloud_factor := (100 - cloud_cover) / 100 in
  let uv_factor := Rmin (uv_index / 11) 1.0 in
  let time_factor := time_factor current_hour in
  let estimated_power := max_power * cloud_factor * uv_factor * time_factor in
  Rmax 0 estimated_power.

(** The gauges created at import time.  A gauge variable is represented by
    the metric name it was created with; the registry maps names to the
    value currently held. *)
Definition pv_estimated_power_watts : string := "pv_estimated_power_watts".
Definition pv_cloud_cover_percent : string := "pv_cloud_cover_percent".
Definition pv_temperature_celsius : string := "pv_temperature_celsius".
Definition pv_humidity_percent : string := "pv_humidity_percent".
Definition pv_wind_speed_mps : string := "pv_wind_speed_mps".
Definition pv_uv_index : string := "pv_uv_index".
Definition pv_efficiency_percent : string := "pv_efficiency_percent".

(** [Gauge(name, doc)] registers the name; a fresh gauge holds 0. *)
Definition Gauge (name : string) (reg : gmap string R) : gmap string R :=
  <[name := 0]> reg.

(** [gauge.set(v)] *)
Definition set (gauge : string) (v : R) (reg : gmap string R)
    : gmap string R :=
  <[gauge := v]> reg.

Definition registry_init : gmap string R :=
  Gauge pv_efficiency_percent
    (Gauge pv_uv_index
      (Gauge pv_wind_speed_mps
        (Gauge pv_humidity_percent
          (Gauge pv_temperature_celsius
            (Gauge pv_cloud_cover_percent
              (Gauge pv_estimated_power_watts ∅)))))).

(** The part of the JSON body that is read: [clouds.all], [main.temp],
    [main.humidity], [wind.speed], each possibly absent. *)
Record weather_json := {
  clouds_all : option R;
  main_temp : option R;
  main_humidity : option R;
  wind_speed : option R
}.

(** [d.get(key, dflt)] *)
Definition get (field : option R) (dflt : R) : R := default dflt field.

(** [response] is [None] when [requests.get], [raise_for_status] or
    [response.json()] raised: the [except Exception] branch only prints.
    [now_hour] is [datetime.now().hour]. *)
Definition fetch_and_update_metrics
    (response : option weather_json) (now_hour : Z)
    (reg : gmap string R) : gmap string R :=
  match response with
  | None => reg
  | Some data =>
    let cloud_cover := get (clouds_all data) 0 in
    let temp := get (main_temp data) 0 in
    let humidity := get (main_humidity data) 0 in
    let wind_speed := get (wind_speed data) 0 in
    let uv_index := 5 in
    let current_hour := now_hour in
    let estimated_power :=
      calculate_estimated_solar_power cloud_cover uv_index current_hour in
    let efficiency := (100 - cloud_cover) * 0.8 in
    set pv_efficiency_percent efficiency
      (set pv_uv_index uv_index
        (set pv_wind_speed_mps wind_speed
          (set pv_humidity_percent humidity
            (set pv_temperature_celsius temp
              (set pv_cloud_cover_percent cloud_cover
                (set pv_estimated_power_watts estimated_power reg))))))
  end.

Definition gauge_names : list string :=
  [ pv_estimated_power_watts; pv_cloud_cover_percent; pv_temperature_celsius;
    pv_humidity_percent; pv_wind_speed_mps; pv_uv_index;
    pv_efficiency_percent ].

(** The poll loop, one entry of [polls] per iteration. *)
Fixpoint poll_loop (polls : list (option weather_json * Z))
    (reg : gmap string R) : gmap string R :=
  match polls with
  | [] => reg
  | (response, now_hour) :: rest =>
      poll_loop rest (fetch_and_update_metrics response now_hour reg)
  end.

End ExporterLive.

(* ===================================================================== *)
(** ** The live exporter's update on any response body                   *)
(* ===================================================================== *)

Module LiveFetch.
Local Open Scope R_scope.

(** What [response.json()] returns.  Numbers are idealised as reals (NaN,
    infinities and integers too large for a float are outside the model);
    a string carries the number [float()] reads from it, if any; of an
    array nothing is ever read. *)
#[warnings="-register-all"]
Inductive json :=
  | JNull
  | JBool (b : bool)
  | JNumber (x : R)
  | JString (as_float : option R)
  | JArray
  | JObject (items : list (string * json)).

Inductive exn :=
  | RequestException
  | AttributeError
  | TypeError
  | ValueError.

(** Expressions either give a value or raise. *)
#[export] Instance exn_ret : MRet (sum exn) := fun A a => inr a.

#[export] Instance exn_bind : MBind (sum exn) := fun A B k x =>
  match x with
  | inr a => k a
  | inl e => inl e
  end.

(** [d.get(key, dflt)]: the value under the key (the last one, should the
    body repeat a key), else the default; a value that is not a dict has
    no [get]. *)
Definition get (d : json) (key : string) (dflt : json) : exn + json :=
  match d with
  | JObject items =>
      inr (default dflt
             (snd <$> last (List.filter (fun item => String.eqb key item.1)
                                        items)))
  | _ => inl AttributeError
  end.

(** A value as an operand of [-]: a number, or a bool counting as 0 or 1. *)
Definition number (v : json) : exn + R :=
  match v with
  | JNumber x => inr x
  | JBool b => inr (if b then 1 else 0)
  | _ => inl TypeError
  end.

(** [float(v)] *)
Definition float (v : json) : exn + R :=
  match v with
  | JNumber x => inr x
  | JBool b => inr (if b then 1 else 0)
  | JString (Some x) => inr x
  | JString None => inl ValueError
  | _ => inl TypeError
  end.

(** [f"{v:.1f}"]: the format code [f] takes a number. *)
Definition format_f (v : json) : exn + unit :=
  match v with
  | JNumber _ | JBool _ => inr tt
  | JString _ => inl ValueError
  | _ => inl TypeError
  end.

(** The four values taken from the body. *)
Record readings := {
  cloud_cover : json;
  temp : json;
  humidity : json;
  wind_speed : json
}.

Definition extract (data : json) : exn + readings :=
  clouds ← get data "clouds" (JObject []);
  cloud_cover ← get clouds "all" (JNumber 0);
  main ← get data "main" (JObject []);
  temp ← get main "temp" (JNumber 0);
  main ← get data "main" (JObject []);
  humidity ← get main "humidity" (JNumber 0);
  wind ← get data "wind" (JObject []);
  wind_speed ← get wind "speed" (JNumber 0);
  mret {| cloud_cover := cloud_cover; temp := temp; humidity := humidity;
          wind_speed := wind_speed |}.

(** Statements of the [try] block run against the gauge registry; what
    was set before an exception stays set. *)
Definition Try (A : Type) : Type := gmap string R -> (exn + A) * gmap string R.

#[export] Instance Try_ret : MRet Try := fun A a reg => (inr a, reg).

#[export] Instance Try_bind : MBind Try := fun A B k m reg =>
  match m reg with
  | (inr a, reg') => k a reg'
  | (inl e, reg') => (inl e, reg')
  end.

Definition eval {A} (x : exn + A) : Try A := fun reg => (x, reg).

(** [gauge.set(v)] stores [float(v)]. *)
Definition store (gauge : string) (x : R) : Try unit :=
  fun reg => (inr tt, <[gauge := x]> reg).

Definition set (gauge : string) (v : json) : Try unit :=
  x ← eval (float v); store gauge x.

(** The body of the [try]; [response] is [None] when [requests.get],
    [raise_for_status] or [response.json()] raised, and [now_hour] is
    [datetime.now().hour].  The estimate subtracts the cloud cover from
    100 before anything is set. *)
Definition try_block (response : option json) (now_hour : Z) : Try unit :=
  match response with
  | None => eval (inl RequestException)
  | Some data =>
    r ← eval (extract data);
    let uv_index := 5 in
    let current_hour := now_hour in
    c ← eval (number (cloud_cover r));
    let estimated_power :=
      ExporterLive.calculate_estimated_solar_power c uv_index current_hour in
    let efficiency := (100 - c) * 0.8 in
    set ExporterLive.pv_estimated_power_watts (JNumber estimated_power);;
    set ExporterLive.pv_cloud_cover_percent (cloud_cover r);;
    set ExporterLive.pv_temperature_celsius (temp r);;
    set ExporterLive.pv_humidity_percent (humidity r);;
    set ExporterLive.pv_wind_speed_mps (wind_speed r);;
    set ExporterLive.pv_uv_index (JNumber uv_index);;
    set ExporterLive.pv_efficiency_percent (JNumber efficiency);;
    eval (format_f (temp r))
  end.

(** [except Exception] only prints.  On a body whose fields are numbers
    this is [ExporterLive.fetch_and_update_metrics]. *)
Definition fetch_and_update_metrics
    (response : option json) (now_hour : Z) (reg : gmap string R)
    : gmap string R :=
  snd (try_block response now_hour reg).

(** The body whose fields, where present, are numbers. *)
Definition member (key : string) (field : option R) : list (string * json) :=
  match field with
  | Some x => [(key, JNumber x)]
  | None => []
  end.

Definition numeric_body (data : ExporterLive.weather_json) : json :=
  JObject
    [ ("clouds"%string, JObject (member "all" (ExporterLive.clouds_all data)));
      ("main"%string,
       JObject (member "temp" (ExporterLive.main_temp data)
                ++ member "humidity" (ExporterLive.main_humidity data)));
      ("wind"%string, JObject (member "speed" (ExporterLive.wind_speed data))) ].

(** Gauge values set one after the other, oldest first. *)
Definition set_all (updates : list (string * R)) (reg : gmap string R)
    : gmap string R :=
  foldl (fun r u => <[u.1 := u.2]> r) reg updates.

(** Bodies used as concrete inputs: a complete one, one whose temperature
    is [null], and one without the [clouds] key. *)
Definition clear_body : json :=
  JObject
    [ ("clouds"%string, JObject [("all"%string, JNumber 40)]);
      ("main"%string, JObject [("temp"%string, JNumber 21);
                               ("humidity"%string, JNumber 55)]);
      ("wind"%string, JObject [("speed"%string, JNumber 3)]) ].

Definition null_temp_body : json :=
  JObject
    [ ("clouds"%string, JObject [("all"%string, JNumber 40)]);
      ("main"%string, JObject [("temp"%string, JNull);
                               ("humidity"%string, JNumber 55)]) ].

Definition no_clouds_body : json :=
  JObject
    [ ("main"%string, JObject [("temp"%string, JNumber 21)]) ].

End LiveFetch.

(* ===================================================================== *)
(** ** The slice of pandas and of Python that the batch code relies on   *)
(* ===================================================================== *)

Module Pandas.
Local Open Scope Q_scope.

(** A numeric cell.  [read_csv] gives a column dtype [int64] when every
    cell of it is an integer literal, and [float64] otherwise; float64
    values are idealised as rationals. *)
Inductive number :=
  | Int64 (z : Z)
  | Float64 (q : Q).

(** Two's-complement wrap-around of 64-bit integer arithmetic. *)
Definition wrap64 (z : Z) : Z := ((z + 2 ^ 63) mod 2 ^ 64 - 2 ^ 63)%Z.

(** [float(x)] *)
Definition float (x : number) : Q :=
  match x with
  | Int64 z => inject_Z z
  | Float64 q => q
  end.

(** [x + y]: int64 addition wraps; with a float64 operand the result is
    float64. *)
Definition add (x y : number) : number :=
  match x, y with
  | Int64 a, Int64 b => Int64 (wrap64 (a + b))
  | _, _ => Float64 (float x + float y)
  end.

Definition is_float (x : number) : bool :=
  match x with
  | Int64 _ => false
  | Float64 _ => true
  end.

(** A frame: the labels and rows of its numeric columns, every cell of
    which is present (a missing cell would be a NaN).  Columns holding
    text (the export's [Datum] and [Uhrzeit]) are never read by the
    exporter and carry no cells here; [text_columns] records whether the
    frame has any, which decides the dtype of a row taken from it. *)
Record DataFrame := {
  columns : list string;
  rows : list (list number);
  text_columns : bool
}.

(** A row seen through the column labels, as [df.iloc[i]] returns it. *)
Definition Series := list (string * number).

(** What [series[label]] or a column reduction gives: one number, or a
    sub-series with one entry per column carrying the label. *)
Inductive py_value :=
  | Number (x : number)
  | SubSeries (xs : list number).

(** [df.empty]: some axis has length 0. *)
Definition empty (df : DataFrame) : bool :=
  match rows df with
  | [] => true
  | _ =>
      match columns df with
      | [] => negb (text_columns df)
      | _ => false
      end
  end.

(** The dtype of a row: [object] beside text columns (each cell keeps its
    own type), else the common numeric dtype, which is [float64] as soon
    as one column is. *)
Definition row_values (df : DataFrame) (row : list number) : list number :=
  if text_columns df then row
  else if existsb is_float row then map (fun x => Float64 (float x)) row
  else row.

(** [df.iloc[-1]]; [None] stands for IndexError on a frame without rows. *)
Definition iloc_last (df : DataFrame) : option Series :=
  (fun row => zip (columns df) (row_values df row)) <$> last (rows df).

(** The entries of a series under one label, in column order. *)
Definition hits (s : Series) (label : string) : list number :=
  map snd (List.filter (fun entry => String.eqb label entry.1) s).

(** [series[label]]; [None] stands for KeyError. *)
Definition getitem (s : Series) (label : string) : option py_value :=
  match hits s label with
  | [] => None
  | [x] => Some (Number x)
  | xs => Some (SubSeries xs)
  end.

(** [column.sum()] of a float64 column. *)
Definition sum (cells : list Q) : Q := foldr Qplus 0 cells.

(** [column.sum()] by dtype: an int64 column is summed in int64. *)
Definition total (cells : list number) : number := foldr add (Int64 0) cells.

(** How many columns carry a label. *)
Definition occurrences (label : string) (labels : list string) : nat :=
  length (List.filter (String.eqb label) labels).

(** [df[label].sum()]: the sum of the one column under the label, or the
    series of sums when several columns carry it; [None] stands for
    KeyError. *)
Definition column_sum (df : DataFrame) (label : string) : option py_value :=
  let sums :=
    map (fun j =>
           total (map (fun row => nth j (hits (zip (columns df) row) label)
                                        (Int64 0))
                      (rows df)))
        (seq 0 (occurrences label (columns df))) in
  match sums with
  | [] => None
  | [x] => Some (Number x)
  | xs => Some (SubSeries xs)
  end.

(** [value * c] with a float [c]: element by element on a series. *)
Definition times (v : py_value) (c : Q) : py_value :=
  match v with
  | Number x => Number (Float64 (float x * c))
  | SubSeries xs => SubSeries (map (fun x => Float64 (float x * c)) xs)
  end.

(** Labels are UTF-8 text.  [str.strip()] with no argument removes the
    characters for which [str.isspace()] holds: U+0009..U+000D,
    U+001C..U+0020, U+0085, U+00A0, U+1680, U+2000..U+200A, U+2028,
    U+2029, U+202F, U+205F and U+3000. *)
Definition byte (a : ascii) : N := N_of_ascii a.

Definition space1 (a : ascii) : bool :=
  let n := byte a in
  ((9 <=? n) && (n <=? 13) || (28 <=? n) && (n <=? 32))%N.

Definition space2 (a b : ascii) : bool :=
  ((byte a =? 194) && ((byte b =? 133) || (byte b =? 160)))%N.

Definition space3 (a b c : ascii) : bool :=
  ((byte a =? 225) && (byte b =? 154) && (byte c =? 128)
   || (byte a =? 226) && (byte b =? 128)
      && ((128 <=? byte c) && (byte c <=? 138)
          || (byte c =? 168) || (byte c =? 169) || (byte c =? 175))
   || (byte a =? 226) && (byte b =? 129) && (byte c =? 159)
   || (byte a =? 227) && (byte b =? 128) && (byte c =? 128))%N.

Fixpoint lstrip (s : string) : string :=
  match s with
  | EmptyString => EmptyString
  | String a s1 =>
      if space1 a then lstrip s1 else
      match s1 with
      | EmptyString => s
      | String b s2 =>
          if space2 a b then lstrip s2 else
          match s2 with
          | EmptyString => s
          | String c s3 => if space3 a b c then lstrip s3 else s
          end
      end
  end.

(** Nothing but whitespace. *)
Definition all_space (s : string) : bool :=
  match lstrip s with
  | EmptyString => true
  | _ => false
  end.

Fixpoint rstrip (s : string) : string :=
  match s with
  | EmptyString => EmptyString
  | String a s' => if all_space s then EmptyString else String a (rstrip s')
  end.

Definition strip (s : string) : string := rstrip (lstrip s).

(** [df.columns = df.columns.str.strip()] *)
Definition strip_columns (df : DataFrame) : DataFrame :=
  {| columns := strip <$> columns df;
     rows := rows df;
     text_columns := text_columns df |}.

(** What [data/pv_data.csv] is when a cycle reads it.  [Parsed df] is the
    frame as [read_csv] builds it, which makes the labels it reads from
    the header distinct. *)
Inductive csv_file :=
  | Missing                       (* no such file *)
  | Blank                         (* zero bytes: nothing to parse *)
  | Malformed                     (* the tokenizer gives up *)
  | Parsed (df : DataFrame).      (* header line and zero or more rows *)

Inductive exn :=
  | FileNotFoundError
  | EmptyDataError
  | ParserError
  | KeyError (label : string)
  | IndexError
  | TypeError
  | KeyboardInterrupt.

Definition read_csv (file : csv_file) : exn + DataFrame :=
  match file with
  | Missing => inl FileNotFoundError
  | Blank => inl EmptyDataError
  | Malformed => inl ParserError
  | Parsed df => inr df
  end.

End Pandas.


(* ===================================================================== *)
(** ** The batch exporter                                                *)
(* ===================================================================== *)

Module PrometheusExporter.
Import Pandas.
Local Open Scope Q_scope.

(** Statements run against the gauge registry and either return or raise;
    what was set before an exception stays set. *)
Inductive outcome (A : Type) :=
  | Returned (a : A)
  | Raised (e : exn).
Arguments Returned {A} a.
Arguments Raised {A} e.

Definition Py (A : Type) : Type := gmap string Q -> outcome A * gmap string Q.

#[export] Instance Py_ret : MRet Py := fun A a reg => (Returned a, reg).

#[export] Instance Py_bind : MBind Py := fun A B k m reg =>
  match m reg with
  | (Returned a, reg') => k a reg'
  | (Raised e, reg') => (Raised e, reg')
  end.

Definition raise {A} (e : exn) : Py A := fun reg => (Raised e, reg).

Definition or_raise {A} (e : exn) (x : option A) : Py A :=
  match x with
  | Some a => mret a
  | None => raise e
  end.

(** [latest[label]] as a statement. *)
Definition item (latest : Series) (label : string) : Py py_value :=
  or_raise (KeyError label) (getitem latest label).

(** [latest[label]] where the cycle goes on to compute with it.  Every
    label read this way has been handed to [Gauge.set] before, which
    rejects a sub-series; that case is kept as the same TypeError. *)
Definition read (latest : Series) (label : string) : Py number :=
  v ← item latest label;
  match v with
  | Number x => mret x
  | SubSeries _ => raise TypeError
  end.

(** The module-level gauges, each represented by its metric name. *)
Definition pv_power_dc1 : string := "pv_power_dc1_watts".
Definition pv_power_dc2 : string := "pv_power_dc2_watts".
Definition pv_power_ac : string := "pv_power_ac_watts".
Definition pv_energy_today : string := "pv_energy_today_kwh".
Definition pv_energy_total : string := "pv_energy_total_kwh".
Definition pv_module_temp : string := "pv_module_temperature_celsius".
Definition pv_ambient_temp : string := "pv_ambient_temperature_celsius".
Definition pv_voltage_dc1 : string := "pv_voltage_dc1_volts".
Definition pv_voltage_dc2 : string := "pv_voltage_dc2_volts".
Definition pv_total_dc_power : string := "pv_total_dc_power_watts".
Definition pv_efficiency : string := "pv_efficiency_percent".
Definition pv_exported_energy : string := "pv_exported_energy_kwh".
Definition pv_self_use_energy : string := "pv_self_use_energy_kwh".

(** [Gauge(name, doc)] registers the name; a fresh gauge holds 0. *)
Definition Gauge (name : string) (reg : gmap string Q) : gmap string Q :=
  <[name := 0]> reg.

Definition registry_init : gmap string Q :=
  Gauge pv_self_use_energy
    (Gauge pv_exported_energy
      (Gauge pv_efficiency
        (Gauge pv_total_dc_power
          (Gauge pv_voltage_dc2
            (Gauge pv_voltage_dc1
              (Gauge pv_ambient_temp
                (Gauge pv_module_temp
                  (Gauge pv_energy_total
                    (Gauge pv_energy_today
                      (Gauge pv_power_ac
                        (Gauge pv_power_dc2
                          (Gauge pv_power_dc1 ∅)))))))))))).

(** [gauge.set(v)] stores [float(v)]; [float] of a sub-series raises
    TypeError and the gauge keeps its value. *)
Definition set (gauge : string) (v : py_value) : Py unit :=
  match v with
  | Number x => fun reg => (Returned tt, <[gauge := float x]> reg)
  | SubSeries _ => raise TypeError
  end.

(** Whatever [read_csv] raises is caught by [except Exception], printed,
    and turned into [None]. *)
Definition load_pv_data (file : csv_file) : option DataFrame :=
  match read_csv file with
  | inr df => Some (strip_columns df)
  | inl _ => None
  end.

Definition update_metrics (file : csv_file) : Py unit :=
  match load_pv_data file with
  | None => mret tt
  | Some df =>
    if empty df then mret tt else
    latest ← or_raise IndexError (iloc_last df);
    v ← item latest "Leistung_DC_1 (W)"; set pv_power_dc1 v;;
    v ← item latest "Leistung_DC_2 (W)"; set pv_power_dc2 v;;
    v ← item latest "Leistung_AC (W)"; set pv_power_ac v;;
    v ← item latest "Energie_Heute (kWh)"; set pv_energy_today v;;
    v ← item latest "Energie_Gesamt (kWh)"; set pv_energy_total v;;
    v ← item latest "Modultemperatur (°C)"; set pv_module_temp v;;
    v ← item latest "Umgebungstemperatur (°C)"; set pv_ambient_temp v;;
    v ← item latest "Spannung_DC_1 (V)"; set pv_voltage_dc1 v;;
    v ← item latest "Spannung_DC_2 (V)"; set pv_voltage_dc2 v;;
    dc1 ← read latest "Leistung_DC_1 (W)";
    dc2 ← read latest "Leistung_DC_2 (W)";
    let total_dc := add dc1 dc2 in
    set pv_total_dc_power (Number total_dc);;
    (if Qlt_le_dec 0 (float total_dc) then
       ac ← read latest "Leistung_AC (W)";
       let efficiency := (float ac / float total_dc) * 100 in
       set pv_efficiency (Number (Float64 efficiency))
     else
       set pv_efficiency (Number (Int64 0)));;
    total_energy ← or_raise (KeyError "Energie_Heute (kWh)")
                     (column_sum df "Energie_Heute (kWh)");
    set pv_exported_energy (times total_energy 0.40);;
    set pv_self_use_energy (times total_energy 0.60);;
    _ ← item latest "Leistung_AC (W)";
    _ ← item latest "Energie_Heute (kWh)";
    mret tt
  end.

Inductive loop_status := Continue | Break.

(** One turn of [while True]: the [try] around [update_metrics()] and
    [time.sleep(30)]. *)
Definition loop_body (file : csv_file) (reg : gmap string Q)
    : loop_status * gmap string Q :=
  match update_metrics file reg with
  | (Returned _, reg') => (Continue, reg')
  | (Raised KeyboardInterrupt, reg') => (Break, reg')
  | (Raised _, reg') => (Continue, reg')
  end.

(** The loop over the successive states of the file, one per turn. *)
Fixpoint main_loop (files : list csv_file) (reg : gmap string Q)
    : gmap string Q :=
  match files with
  | [] => reg
  | file :: rest =>
      match loop_body file reg with
      | (Continue, reg') => main_loop rest reg'
      | (Break, reg') => reg'
      end
  end.

End PrometheusExporter.

(* ===================================================================== *)
(** ** The dashboard's energy split                                      *)
(* ===================================================================== *)

Module Dashboard.
Local Open Scope Q_scope.

(** [main]: the split of [total_yield = df['Yield_Energy_kWh'].sum()]. *)
Definition total_exported (total_yield : Q) : Q := total_yield * 0.40.
Definition total_self_use (total_yield : Q) : Q := total_yield * 0.60.

End Dashboard.


(* ===================================================================== *)
(** ** Vocabulary for statements about a batch cycle                     *)
(* ===================================================================== *)

Module Cycle.
Import Pandas PrometheusExporter.
Local Open Scope Q_scope.

(** One reading: the nine cells [update_metrics] takes from the last row. *)
Record Sample := {
  Leistung_DC_1 : number;
  Leistung_DC_2 : number;
  Leistung_AC : number;
  Energie_Heute : number;
  Energie_Gesamt : number;
  Modultemperatur : number;
  Umgebungstemperatur : number;
  Spannung_DC_1 : number;
  Spannung_DC_2 : number
}.

Definition required_columns : list string :=
  [ "Leistung_DC_1 (W)"; "Leistung_DC_2 (W)"; "Leistung_AC (W)";
    "Energie_Heute (kWh)"; "Energie_Gesamt (kWh)"; "Modultemperatur (°C)";
    "Umgebungstemperatur (°C)"; "Spannung_DC_1 (V)"; "Spannung_DC_2 (V)" ]%string.

(** The number a row holds under a label carried by exactly one column. *)
Definition number_at (row : Series) (label : string) : option number :=
  match getitem row label with
  | Some (Number x) => Some x
  | _ => None
  end.

Definition sample_of (row : Series) : option Sample :=
  dc1 ← number_at row "Leistung_DC_1 (W)";
  dc2 ← number_at row "Leistung_DC_2 (W)";
  ac ← number_at row "Leistung_AC (W)";
  today ← number_at row "Energie_Heute (kWh)";
  total ← number_at row "Energie_Gesamt (kWh)";
  tmod ← number_at row "Modultemperatur (°C)";
  tamb ← number_at row "Umgebungstemperatur (°C)";
  v1 ← number_at row "Spannung_DC_1 (V)";
  v2 ← number_at row "Spannung_DC_2 (V)";
  Some {| Leistung_DC_1 := dc1; Leistung_DC_2 := dc2; Leistung_AC := ac;
          Energie_Heute := today; Energie_Gesamt := total;
          Modultemperatur := tmod; Umgebungstemperatur := tamb;
          Spannung_DC_1 := v1; Spannung_DC_2 := v2 |}.

(** The last row of the loaded file, and the whole energy column when
    exactly one column carries its label. *)
Definition latest (file : csv_file) : option Series :=
  df ← load_pv_data file; iloc_last df.

Definition latest_sample (file : csv_file) : option Sample :=
  row ← latest file; sample_of row.

Definition energy_column (file : csv_file) : option (list number) :=
  df ← load_pv_data file;
  if (occurrences "Energie_Heute (kWh)" (columns df) =? 1)%nat then
    Some (map (fun row =>
                 nth 0 (hits (zip (columns df) row) "Energie_Heute (kWh)")
                     (Int64 0))
              (rows df))
  else None.

(** Every row has one cell per column. *)
Definition rectangular (df : DataFrame) : bool :=
  forallb (fun row => (length row =? length (columns df))%nat) (rows df).

(** Each label is carried by exactly one column. *)
Definition unique_columns (df : DataFrame) (labels : list string) : bool :=
  forallb (fun l => (occurrences l (columns df) =? 1)%nat) labels.

(** The file loads, has a row, and has each of the nine columns the cycle
    reads exactly once after stripping. *)
Definition complete (file : csv_file) : bool :=
  match load_pv_data file with
  | Some df =>
      negb (empty df) && rectangular df && unique_columns df required_columns
  | None => false
  end.

(** The file does not load, or loads as an empty frame. *)
Definition unavailable (file : csv_file) : bool :=
  match load_pv_data file with
  | Some df => empty df
  | None => true
  end.

(** What goes wrong with a label, if anything: KeyError when no column
    carries it, TypeError (from [Gauge.set]) when several do. *)
Definition lookup_failure (df : DataFrame) (label : string) : option exn :=
  match occurrences label (columns df) with
  | O => Some (KeyError label)
  | S O => None
  | S (S _) => Some TypeError
  end.

(** The first failure in the order [update_metrics] reads the labels. *)
Definition first_failure (df : DataFrame) : option exn :=
  foldr (fun label later =>
           match lookup_failure df label with
           | Some e => Some e
           | None => later
           end)
        None required_columns.

(** The cycle cannot stop between two gauges: the file is unavailable, or
    every lookup succeeds, or the very first one fails. *)
Definition all_or_nothing (file : csv_file) : bool :=
  match load_pv_data file with
  | None => true
  | Some df =>
      empty df ||
      match first_failure df with
      | None => true
      | Some _ =>
          match lookup_failure df "Leistung_DC_1 (W)" with
          | Some _ => true
          | None => false
          end
      end
  end.

(** Loaded frames are rectangular, as pandas builds them. *)
Definition well_formed (file : csv_file) : bool :=
  match load_pv_data file with
  | Some df => rectangular df
  | None => true
  end.

Definition gauge_names : list string :=
  [ pv_power_dc1; pv_power_dc2; pv_power_ac; pv_energy_today;
    pv_energy_total; pv_module_temp; pv_ambient_temp; pv_voltage_dc1;
    pv_voltage_dc2; pv_total_dc_power; pv_efficiency; pv_exported_energy;
    pv_self_use_energy ].

(** The gauges whose value is taken from the last row alone. *)
Definition latest_row_gauges : list string :=
  [ pv_power_dc1; pv_power_dc2; pv_power_ac; pv_energy_today;
    pv_energy_total; pv_module_temp; pv_ambient_temp; pv_voltage_dc1;
    pv_voltage_dc2; pv_total_dc_power; pv_efficiency ].

(** The registry after one call of [update_metrics]. *)
Definition cycle (file : csv_file) (reg : gmap string Q) : gmap string Q :=
  snd (update_metrics file reg).

(** A gauge the cycle leaves alone, and a gauge the cycle sets: its value
    afterwards is fixed by the file, whatever it held before. *)
Definition untouched (file : csv_file) (name : string) : Prop :=
  forall reg, cycle file reg !! name = reg !! name.

Definition written (file : csv_file) (name : string) : Prop :=
  exists v, forall reg, cycle file reg !! name = Some v.

(** "Either updates no gauge or updates every gauge". *)
Definition atomic (file : csv_file) : Prop :=
  (forall name, name ∈ gauge_names -> untouched file name) \/
  (forall name, name ∈ gauge_names -> written file name).

(** The total DC power of a sample as the cycle computes it, and the
    value the efficiency gauge receives. *)
Definition total_dc_of (s : Sample) : number :=
  add (Leistung_DC_1 s) (Leistung_DC_2 s).

Definition efficiency_of (s : Sample) : Q :=
  let total_dc := float (total_dc_of s) in
  if Qlt_le_dec 0 total_dc then (float (Leistung_AC s) / total_dc) * 100 else 0.

(** The sum of two readings does not leave the int64 range (always so
    when one of them is a float). *)
Definition no_wrap (x y : number) : Prop :=
  match x, y with
  | Int64 a, Int64 b => (- 2 ^ 63 <= a + b < 2 ^ 63)%Z
  | _, _ => True
  end.

(** Every gauge set, from a sample and the summed energy column. *)
Definition publish (s : Sample) (total_energy : number) (reg : gmap string Q)
    : gmap string Q :=
  <[pv_self_use_energy := float total_energy * 0.60]>
  (<[pv_exported_energy := float total_energy * 0.40]>
  (<[pv_efficiency := efficiency_of s]>
  (<[pv_total_dc_power := float (total_dc_of s)]>
  (<[pv_voltage_dc2 := float (Spannung_DC_2 s)]>
  (<[pv_voltage_dc1 := float (Spannung_DC_1 s)]>
  (<[pv_ambient_temp := float (Umgebungstemperatur s)]>
  (<[pv_module_temp := float (Modultemperatur s)]>
  (<[pv_energy_total := float (Energie_Gesamt s)]>
  (<[pv_energy_today := float (Energie_Heute s)]>
  (<[pv_power_ac := float (Leistung_AC s)]>
  (<[pv_power_dc2 := float (Leistung_DC_2 s)]>
  (<[pv_power_dc1 := float (Leistung_DC_1 s)]> reg)))))))))))).

(** A statement that keeps a property [P] of the registry whether it
    returns or raises, and never raises KeyboardInterrupt by itself. *)
Definition sound {A : Type} (P : gmap string Q -> Prop) (m : Py A) : Prop :=
  forall reg, P reg ->
    P (snd (m reg)) /\ fst (m reg) <> Raised KeyboardInterrupt.

(** Frames used as concrete inputs.  The header pads two labels, one with
    blanks and one with a no-break space (U+00A0). *)
Definition nbsp : string := String "194" (String "160" EmptyString).

Definition inverter_columns : list string :=
  [ " Leistung_DC_1 (W)"; "Leistung_DC_2 (W)" +:+ nbsp; "Leistung_AC (W)";
    "Energie_Heute (kWh)"; "Energie_Gesamt (kWh)"; "Modultemperatur (°C)";
    "Umgebungstemperatur (°C)"; "Spannung_DC_1 (V)"; "Spannung_DC_2 (V)" ]%string.

Definition morning_row : list number :=
  [ Int64 300; Int64 200; Int64 450; Float64 1.5; Float64 1200;
    Int64 31; Int64 18; Int64 380; Int64 375 ].
Definition noon_row : list number :=
  [ Int64 600; Int64 400; Int64 900; Float64 4.5; Float64 1203;
    Int64 44; Int64 24; Int64 402; Int64 398 ].
Definition reversed_row : list number :=
  [ Int64 (-600); Int64 (-400); Int64 900; Float64 4.5; Float64 1203;
    Int64 44; Int64 24; Int64 402; Int64 398 ].

Definition two_rows : DataFrame :=
  {| columns := inverter_columns; rows := [morning_row; noon_row];
     text_columns := true |}.
Definition one_row : DataFrame :=
  {| columns := inverter_columns; rows := [noon_row]; text_columns := true |}.
Definition reversed_flow : DataFrame :=
  {| columns := inverter_columns; rows := [reversed_row];
     text_columns := true |}.
Definition only_dc1 : DataFrame :=
  {| columns := ["Leistung_DC_1 (W)"%string]; rows := [[Int64 100]];
     text_columns := true |}.
Definition without_dc1 : DataFrame :=
  {| columns := tail inverter_columns; rows := [tail noon_row];
     text_columns := true |}.
Definition twice_dc2 : DataFrame :=
  {| columns := [ "Leistung_DC_1 (W)"; "Leistung_DC_2 (W)";
                  "Leistung_DC_2 (W) " ]%string;
     rows := [[Int64 100; Int64 50; Int64 60]];
     text_columns := true |}.
Definition header_only : DataFrame :=
  {| columns := inverter_columns; rows := []; text_columns := true |}.

(** The sample of [noon_row]. *)
Definition noon_sample : Sample :=
  {| Leistung_DC_1 := Int64 600; Leistung_DC_2 := Int64 400;
     Leistung_AC := Int64 900; Energie_Heute := Float64 4.5;
     Energie_Gesamt := Float64 1203; Modultemperatur := Int64 44;
     Umgebungstemperatur := Int64 24; Spannung_DC_1 := Int64 402;
     Spannung_DC_2 := Int64 398 |}.

End Cycle.


(* ===================================================================== *)
(** ** The estimate as the specification words it                        *)
(* ===================================================================== *)

Module SpecFormula.
Local Open Scope R_scope.

(** [timeFactor = |sin((hour - 6) * pi / 14)|] for hour in [6,20]
    inclusive, else 0. *)
Definition timeFactor (hour : R) : R :=
  if Rle_dec 6 hour then
    if Rle_dec hour 20 then Rabs (sin ((hour - 6) * PI / 14)) else 0
  else 0.

(** [tempFactor = 1 - max(0, temp - 25) * 0.005] *)
Definition tempFactor (temp : R) : R := 1 - Rmax 0 (temp - 25) * 0.005.

(** [P = P_max * cloudFactor * uvFactor * timeFactor * tempFactor],
    clamped to a non-negative value; [uvDivisor] is the denominator of
    [uvFactor = min(uvIndex / uvDivisor, 1.0)]. *)
Definition estimate (P_max uvDivisor : R)
    (cloudCoverPct uvIndex hour tempFactor : R) : R :=
  let cloudFactor := (100 - cloudCoverPct) / 100 in
  let uvFactor := Rmin (uvIndex / uvDivisor) 1.0 in
  Rmax 0 (P_max * cloudFactor * uvFactor * timeFactor hour * tempFactor).

End SpecFormula.

(* ===================================================================== *)
(** ** Vocabulary for what a batch cycle writes and raises               *)
(* ===================================================================== *)

Module CycleLog.
Import Pandas PrometheusExporter Cycle.
Local Open Scope Q_scope.

(** A sequence of [gauge.set(v)] calls, oldest first, replayed on a
    registry. *)
Definition apply_writes (writes : list (string * Q)) (reg : gmap string Q)
    : gmap string Q :=
  foldl (fun r w => <[w.1 := w.2]> r) reg writes.

(** The value the most recent write gave to a gauge, if any wrote it. *)
Fixpoint last_write (writes : list (string * Q)) (gauge : string)
    : option Q :=
  match writes with
  | [] => None
  | w :: rest =>
      match last_write rest gauge with
      | Some v => Some v
      | None => if String.eqb w.1 gauge then Some w.2 else None
      end
  end.

(** A statement whose outcome and writes do not depend on the registry it
    starts from, and which writes gauges among [names] only. *)
Definition writes_to {A : Type} (names : list string) (m : Py A) : Prop :=
  exists o writes,
    Forall (fun w => w.1 ∈ names) writes /\
    forall reg, m reg = (o, apply_writes writes reg).

End CycleLog.

(* ===================================================================== *)
(** ** The live dashboard page                                           *)
(* ===================================================================== *)

Module DashboardLivePage.
Import DashboardLive.
Local Open Scope R_scope.

(** [uv_data] is [None] when the UV request failed, else the body with its
    optional [value] key: [uv_data.get("value", 5) if uv_data else 5]. *)
Definition uv_index_of (uv_data : option (option R)) : R :=
  match uv_data with
  | Some body => ExporterLive.get body 5
  | None => 5
  end.

(** The current estimate as the page computes it from the weather body. *)
Definition estimated_power (weather_data : ExporterLive.weather_json)
    (uv_data : option (option R)) (current_time : datetime) : R :=
  let cloud_cover := ExporterLive.get (ExporterLive.clouds_all weather_data) 0 in
  let temp := ExporterLive.get (ExporterLive.main_temp weather_data) 25 in
  let uv_index := uv_index_of uv_data in
  calculate_estimated_solar_power cloud_cover uv_index current_time temp.

(** The delta under "Current Power": [(estimated_power/5.0)*100]. *)
Definition capacity_percent (estimated_power : R) : R :=
  (estimated_power / 5.0) * 100.

(** The "Efficiency" metric: [efficiency = (100 - cloud_cover) * 0.85],
    shown as [min(efficiency, 100)]. *)
Definition efficiency (cloud_cover : R) : R := (100 - cloud_cover) * 0.85.
Definition shown_efficiency (cloud_cover : R) : R :=
  Rmin (efficiency cloud_cover) 100.

(** The "Sun Status" line, from [current_time.hour] alone. *)
Inductive sun_status := Daylight | Night.

Definition sun_position (current_time : datetime) : sun_status :=
  let hour := dt_hour current_time in
  if Z_le_dec 6 hour then
    if Z_le_dec hour 20 then Daylight else Night
  else Night.

(** One entry of the forecast list, with [datetime.fromtimestamp(item["dt"])]
    already taken, [item["main"]["temp"]] and [item["clouds"]["all"]]. *)
Record forecast_item := {
  item_datetime : datetime;
  item_temp : R;
  item_clouds : R
}.

(** The [estimated_power_kw] column of [forecast_df], from
    [forecast_list[:40]]. *)
Definition forecast_power (uv_index : R) (forecast_list : list forecast_item)
    : list R :=
  map (fun item =>
         calculate_estimated_solar_power
           (item_clouds item) uv_index (item_datetime item) (item_temp item))
      (take 40 forecast_list).

End DashboardLivePage.

(* ===================================================================== *)
(** ** Grouping rows, as [DataFrame.groupby] does                        *)
(* ===================================================================== *)

Module Groupby.

(** Groups are kept in increasing key order; a row joins the end of its
    group, or opens a new group at its place. *)
Fixpoint group_insert {A : Type} (k : Z) (a : A)
    (groups : list (Z * list A)) : list (Z * list A) :=
  match groups with
  | [] => [(k, [a])]
  | (k', members) :: rest =>
      if (k <? k')%Z then (k, [a]) :: groups
      else if (k =? k')%Z then (k', members ++ [a]) :: rest
      else (k', members) :: group_insert k a rest
  end.

(** [df.groupby(key)]: the rows of each key, keys sorted, rows in their
    original order within a group. *)
Definition groupby {A : Type} (key : A -> Z) (rows : list A)
    : list (Z * list A) :=
  foldl (fun groups a => group_insert (key a) a groups) [] rows.

(** What holds of the groups at every step: keys strictly increasing, no
    empty group, every member under its own key. *)
Definition well_grouped {A : Type} (key : A -> Z)
    (groups : list (Z * list A)) : Prop :=
  StronglySorted Z.lt (groups.*1) /\
  Forall (fun g => g.2 <> [] /\ Forall (fun a => key a = g.1) g.2) groups.

End Groupby.

(* ===================================================================== *)
(** ** The dashboard's daily-yield table                                 *)
(* ===================================================================== *)

Module DashboardDaily.
Import Pandas Groupby.
Local Open Scope Q_scope.

(** A row of the frame [load_data] returns, with the columns the page
    goes on to use: [Hour] is the hour of the parsed [DateTime]
    ([df['DateTime'].dt.hour]); the other three are the columns
    [load_data] adds. *)
Record loaded_row := {
  Hour : Z;
  Yield_Energy_kWh : Q;
  Total_DC_Power_W : Q;
  AC_Power_kW : Q
}.

(** [column.mean()] *)
Definition mean (cells : list Q) : Q :=
  sum cells / inject_Z (Z.of_nat (length cells)).

(** [f"{x} {'am' if x < 12 else 'pm'}"] *)
Definition time_label (x : Z) : string :=
  pretty x +:+ " " +:+ (if (x <? 12)%Z then "am" else "pm").

Record hourly_row := {
  hourly_Hour : Z;
  hourly_Yield_Energy_kWh : Q;
  hourly_AC_Power_kW : Q;
  Exported_Energy_kWh : Q;
  SelfUse_Energy_kWh : Q;
  Time_Label : string
}.

Definition calculate_daily_yield (df : list loaded_row) : list hourly_row :=
  map (fun group =>
         let yield := sum (map Yield_Energy_kWh group.2) in
         {| hourly_Hour := group.1;
            hourly_Yield_Energy_kWh := yield;
            hourly_AC_Power_kW := mean (map AC_Power_kW group.2);
            Exported_Energy_kWh := yield * 0.40;
            SelfUse_Energy_kWh := yield * 0.60;
            Time_Label := time_label group.1 |})
      (groupby Hour df).

(** [main]: the day's totals and the rows picked for the bar chart. *)
Definition total_yield (df : list loaded_row) : Q :=
  sum (map Yield_Energy_kWh df).

Definition display_hours : list Z := [6; 8; 10; 12; 14; 16; 18]%Z.

Definition display_data (daily_yield : list hourly_row) : list hourly_row :=
  filter (fun r => hourly_Hour r ∈ display_hours) daily_yield.

End DashboardDaily.

(* ===================================================================== *)
(** ** The live page's daily energy estimate                             *)
(* ===================================================================== *)

Module DashboardLiveDaily.
Import DashboardLive DashboardLivePage Groupby.
Local Open Scope R_scope.

(** A row of [forecast_df]: the [date] column (the calendar day of the
    entry's timestamp, as a day number) and [estimated_power_kw]. *)
Record forecast_row := {
  date : Z;
  estimated_power_kw : R
}.

(** [forecast_df], from the first 40 entries; each entry comes with the
    calendar day of its timestamp. *)
Definition forecast_df (uv_index : R)
    (forecast_list : list (Z * forecast_item)) : list forecast_row :=
  map (fun entry =>
         {| date := entry.1;
            estimated_power_kw :=
              calculate_estimated_solar_power
                (item_clouds entry.2) uv_index
                (item_datetime entry.2) (item_temp entry.2) |})
      (take 40 forecast_list).

(** [column.sum()] over reals. *)
Definition Rsum (cells : list R) : R := foldr Rplus 0 cells.

(** [forecast_df.groupby('date')['estimated_power_kw'].sum() * 3 / 1000] *)
Definition daily_energy (df : list forecast_row) : list (Z * R) :=
  map (fun group => (group.1, Rsum (map estimated_power_kw group.2) * 3 / 1000))
      (groupby date df).

End DashboardLiveDaily.

(* ===================================================================== *)
(** ** Theorems                                                           *)
(* ===================================================================== *)


Section EstimateFacts.
Local Open Scope R_scope.

Lemma abs_sin_le_1 x : Rabs (sin x) <= 1.
Proof. apply Rabs_le. pose proof (SIN_bound x). lra. Qed.

Lemma dash_time_factor_range h : 0 <= DashboardLive.time_factor h <= 1.
Proof.
  unfold DashboardLive.time_factor.
  destruct (Rle_dec 6 h); [destruct (Rle_dec h 20)|]; try lra.
  split; [apply Rabs_pos | apply abs_sin_le_1].
Qed.

Lemma exp_time_factor_range h : 0 <= ExporterLive.time_factor h <= 1.
Proof.
  unfold ExporterLive.time_factor.
  destruct (Z_le_dec 6 h); [destruct (Z_le_dec h 20)|]; try lra.
  split; [apply Rabs_pos | apply abs_sin_le_1].
Qed.

Lemma dash_time_factor_night h :
  h < 6 \/ 20 < h -> DashboardLive.time_factor h = 0.
Proof.
  unfold DashboardLive.time_factor.
  destruct (Rle_dec 6 h); [destruct (Rle_dec h 20)|]; lra.
Qed.

Lemma exp_time_factor_night h :
  (h < 6 \/ 20 < h)%Z -> ExporterLive.time_factor h = 0.
Proof.
  unfold ExporterLive.time_factor.
  destruct (Z_le_dec 6 h); [destruct (Z_le_dec h 20)|]; intros; lia || reflexivity.
Qed.

(** [min(u / d, 1.0)] lies in [0,1] and grows with [u]. *)
Lemma uv_factor_range u d : 0 < d -> 0 <= u -> 0 <= Rmin (u / d) 1.0 <= 1.
Proof.
  intros Hd Hu. split.
  - apply Rmin_glb; [|lra]. apply Rmult_le_pos; [lra|].
    left. now apply Rinv_0_lt_compat.
  - pose proof (Rmin_r (u / d) 1.0). lra.
Qed.

Lemma uv_factor_mono u1 u2 d :
  0 < d -> u1 <= u2 -> Rmin (u1 / d) 1.0 <= Rmin (u2 / d) 1.0.
Proof.
  intros Hd Hu. apply Rle_min_compat_r.
  apply Rmult_le_compat_r; [|exact Hu].
  left. now apply Rinv_0_lt_compat.
Qed.

(** The clamp [max(0, _)] makes a product monotone in a non-negative
    factor whatever the sign of the last one. *)
Lemma clamp_mono x y k t :
  0 <= y <= x -> 0 <= k -> Rmax 0 (y * k * t) <= Rmax 0 (x * k * t).
Proof.
  intros [Hy Hyx] Hk.
  destruct (Rle_dec 0 t) as [Ht|Ht].
  - apply Rle_max_compat_l.
    apply Rmult_le_compat_r; [exact Ht|].
    apply Rmult_le_compat_r; assumption.
  - assert (Hneg : forall z, 0 <= z -> Rmax 0 (z * k * t) = 0).
    { intros z Hz. apply Rmax_left.
      assert (0 <= z * k) by now apply Rmult_le_pos.
      assert (0 <= (z * k) * - t) by (apply Rmult_le_pos; lra). lra. }
    rewrite !Hneg by lra. lra.
Qed.

Lemma unit_prod a b : 0 <= a <= 1 -> 0 <= b <= 1 -> 0 <= a * b <= 1.
Proof.
  intros [Ha0 Ha1] [Hb0 Hb1]. split; [now apply Rmult_le_pos|].
  replace 1 with (1 * 1) by ring. apply Rmult_le_compat; assumption.
Qed.

(** A product of unit-interval factors and one factor at most 1, scaled
    by [P] and clamped, stays within [0, P]. *)
Lemma clamp_le_nameplate P a b c t :
  0 <= P -> 0 <= a <= 1 -> 0 <= b <= 1 -> 0 <= c <= 1 -> t <= 1 ->
  Rmax 0 (P * a * b * c * t) <= P.
Proof.
  intros HP Ha Hb Hc Ht. apply Rmax_lub; [exact HP|].
  pose proof (unit_prod _ _ (unit_prod _ _ Ha Hb) Hc) as [H0 H1].
  replace (P * a * b * c * t) with (P * (a * b * c * t)) by ring.
  rewrite <- (Rmult_1_r P) at 2.
  apply Rmult_le_compat_l; [exact HP|].
  destruct (Rle_dec 0 t) as [Ht0|Ht0].
  - replace 1 with (1 * 1) by ring. apply Rmult_le_compat; lra.
  - assert (0 <= (a * b * c) * - t) by (apply Rmult_le_pos; lra). lra.
Qed.

Lemma cloud_factor_range c : 0 <= c <= 100 -> 0 <= (100 - c) / 100 <= 1.
Proof. intros. lra. Qed.

Lemma temp_factor_le_1 temp : 1 - Rmax 0 (temp - 25) * 0.005 <= 1.
Proof. pose proof (Rmax_l 0 (temp - 25)). lra. Qed.

Lemma sin_mid_day : sin ((13 - 6) * PI / 14) = 1.
Proof. replace ((13 - 6) * PI / 14) with (PI / 2) by lra. apply sin_PI2. Qed.

(** On [0, pi] the sine reaches 1 at [pi/2] only. *)
Lemma sin_eq_1_unique x : 0 <= x <= PI -> sin x = 1 -> x = PI / 2.
Proof.
  intros [H0 Hpi] Hs. pose proof PI_RGT_0 as HPI.
  destruct (Rtotal_order x (PI / 2)) as [Hlt|[Heq|Hgt]]; [|exact Heq|].
  - exfalso. assert (sin x < sin (PI / 2)) as Hc.
    { apply sin_increasing_1; lra. }
    rewrite sin_PI2 in Hc. lra.
  - exfalso. assert (sin (PI - x) < sin (PI / 2)) as Hc.
    { apply sin_increasing_1; lra. }
    rewrite sin_PI2, sin_PI_x in Hc. lra.
Qed.

Lemma abs_sin_eq_1_unique x : 0 <= x <= PI -> Rabs (sin x) = 1 -> x = PI / 2.
Proof.
  intros Hx Ha. apply sin_eq_1_unique; [exact Hx|].
  rewrite Rabs_right in Ha; [exact Ha|].
  apply Rle_ge, sin_ge_0; lra.
Qed.

End EstimateFacts.

Section EstimateClaims.
Local Open Scope R_scope.
Import DashboardLive.

Local Abbreviation D := DashboardLive.calculate_estimated_solar_power.
Local Abbreviation E := ExporterLive.calculate_estimated_solar_power.

Local Ltac open_estimates :=
  unfold DashboardLive.calculate_estimated_solar_power,
         ExporterLive.calculate_estimated_solar_power,
         DashboardLive.max_power, ExporterLive.max_power;
  cbv zeta.

(** C3. With the other arguments held fixed, cloud cover in [0,100] and a
    UV index that is not negative, both estimates do not increase when the
    cloud cover grows, do not decrease when the UV index grows (they are
    constant once the UV factor is clamped at 1), and are never negative. *)
Theorem C3_estimate_monotone_and_nonnegative
    (c1 c2 u1 u2 temp : R) (t : datetime) (h : Z) :
  0 <= c1 -> c1 <= c2 -> c2 <= 100 -> 0 <= u1 -> u1 <= u2 ->
  (D c2 u1 t temp <= D c1 u1 t temp /\
   D c1 u1 t temp <= D c1 u2 t temp /\
   0 <= D c1 u1 t temp) /\
  (E c2 u1 h <= E c1 u1 h /\
   E c1 u1 h <= E c1 u2 h /\
   0 <= E c1 u1 h).
Proof.
  intros Hc1 Hc12 Hc2 Hu1 Hu12.
  pose proof (dash_time_factor_range (hour_of t)) as [Htd _].
  pose proof (exp_time_factor_range h) as [Hte _].
  assert (Hd10 : 0 < 10) by lra. assert (Hd11 : 0 < 11) by lra.
  pose proof (uv_factor_range u1 10 Hd10 Hu1) as [Hv10 _].
  pose proof (uv_factor_range u1 11 Hd11 Hu1) as [Hv11 _].
  pose proof (uv_factor_mono u1 u2 10 Hd10 Hu12) as Hm10.
  pose proof (uv_factor_mono u1 u2 11 Hd11 Hu12) as Hm11.
  open_estimates. repeat split.
  - set (T := 1 - _). set (V := Rmin (u1 / 10) _) in *.
    set (F := time_factor _) in *.
    replace (5.0 * ((100 - c2) / 100) * V * F * T)
      with (5.0 * ((100 - c2) / 100) * (V * F) * T) by ring.
    replace (5.0 * ((100 - c1) / 100) * V * F * T)
      with (5.0 * ((100 - c1) / 100) * (V * F) * T) by ring.
    apply clamp_mono; [lra | now apply Rmult_le_pos].
  - set (T := 1 - _).
    set (V1 := Rmin (u1 / 10) _) in *. set (V2 := Rmin (u2 / 10) _) in *.
    set (F := time_factor _) in *.
    replace (5.0 * ((100 - c1) / 100) * V1 * F * T)
      with (V1 * (5.0 * ((100 - c1) / 100) * F) * T) by ring.
    replace (5.0 * ((100 - c1) / 100) * V2 * F * T)
      with (V2 * (5.0 * ((100 - c1) / 100) * F) * T) by ring.
    apply clamp_mono; [lra | apply Rmult_le_pos; lra].
  - apply Rmax_l.
  - set (V := Rmin (u1 / 11) _) in *.
    set (F := ExporterLive.time_factor _) in *.
    replace (5000 * ((100 - c2) / 100) * V * F)
      with (5000 * ((100 - c2) / 100) * (V * F) * 1) by ring.
    replace (5000 * ((100 - c1) / 100) * V * F)
      with (5000 * ((100 - c1) / 100) * (V * F) * 1) by ring.
    apply clamp_mono; [lra | now apply Rmult_le_pos].
  - set (V1 := Rmin (u1 / 11) _) in *. set (V2 := Rmin (u2 / 11) _) in *.
    set (F := ExporterLive.time_factor _) in *.
    replace (5000 * ((100 - c1) / 100) * V1 * F)
      with (V1 * (5000 * ((100 - c1) / 100) * F) * 1) by ring.
    replace (5000 * ((100 - c1) / 100) * V2 * F)
      with (V2 * (5000 * ((100 - c1) / 100) * F) * 1) by ring.
    apply clamp_mono; [lra | apply Rmult_le_pos; lra].
  - apply Rmax_l.
Qed.

Lemma C3_witness :
  let noon := {| dt_hour := 12; dt_minute := 30 |} in
  (D 80 3 noon 30 <= D 20 3 noon 30 /\
   D 20 3 noon 30 <= D 20 7 noon 30 /\
   0 <= D 20 3 noon 30) /\
  (E 80 3 12 <= E 20 3 12 /\ E 20 3 12 <= E 20 7 12 /\ 0 <= E 20 3 12).
Proof.
  intro noon.
  apply (C3_estimate_monotone_and_nonnegative 20 80 3 7 30 noon 12); lra.
Defined.

(** C10. For cloud cover in [0,100], a UV index that is not negative, any
    time of day and any temperature, the estimate never exceeds the
    nameplate maximum: 5.0 kW in the dashboard, 5000 W in the exporter. *)
Theorem C10_estimate_at_most_nameplate
    (c u temp : R) (t : datetime) (h : Z) :
  0 <= c <= 100 -> 0 <= u ->
  D c u t temp <= 5.0 /\ E c u h <= 5000.
Proof.
  intros Hc Hu. open_estimates. split.
  - apply clamp_le_nameplate.
    + lra.
    + now apply cloud_factor_range.
    + apply uv_factor_range; lra.
    + apply dash_time_factor_range.
    + apply temp_factor_le_1.
  - rewrite <- (Rmult_1_r (_ * ExporterLive.time_factor h)).
    apply clamp_le_nameplate.
    + lra.
    + now apply cloud_factor_range.
    + apply uv_factor_range; lra.
    + apply exp_time_factor_range.
    + lra.
Qed.

Lemma C10_witness :
  D 0 25 {| dt_hour := 13; dt_minute := 0 |} (-40) <= 5.0 /\ E 0 25 13 <= 5000.
Proof. apply C10_estimate_at_most_nameplate; lra. Defined.

Lemma day_angle_range x : 6 <= x <= 20 -> 0 <= (x - 6) * PI / 14 <= PI.
Proof.
  intros [H6 H20]. pose proof PI_RGT_0 as HPI.
  replace ((x - 6) * PI / 14) with (PI * ((x - 6) / 14)) by lra.
  split.
  - apply Rmult_le_pos; lra.
  - rewrite <- (Rmult_1_r PI) at 2. apply Rmult_le_compat_l; lra.
Qed.

Lemma day_angle_peak x : (x - 6) * PI / 14 = PI / 2 -> x = 13.
Proof.
  intros H. pose proof PI_RGT_0 as HPI.
  assert (Hx : (x - 13) * PI = 0) by lra.
  apply Rmult_integral in Hx as [Hx|Hx]; lra.
Qed.

Lemma dash_time_factor_peak x :
  DashboardLive.time_factor x = 1 -> x = 13.
Proof.
  unfold DashboardLive.time_factor.
  destruct (Rle_dec 6 x); [destruct (Rle_dec x 20)|]; try lra.
  intros H. apply day_angle_peak, abs_sin_eq_1_unique; [|exact H].
  apply day_angle_range; lra.
Qed.

Lemma exp_time_factor_peak h :
  ExporterLive.time_factor h = 1 -> h = 13%Z.
Proof.
  unfold ExporterLive.time_factor.
  destruct (Z_le_dec 6 h); [destruct (Z_le_dec h 20)|]; try lra.
  intros H. apply eq_IZR.
  apply day_angle_peak, abs_sin_eq_1_unique; [|exact H].
  apply day_angle_range. split.
  - now apply IZR_le in l.
  - now apply IZR_le in l0.
Qed.

Lemma dash_time_factor_13 : DashboardLive.time_factor 13 = 1.
Proof.
  unfold DashboardLive.time_factor.
  destruct (Rle_dec 6 13); [destruct (Rle_dec 13 20)|]; try lra.
  rewrite sin_mid_day. apply Rabs_R1.
Qed.

Lemma exp_time_factor_13 : ExporterLive.time_factor 13 = 1.
Proof.
  unfold ExporterLive.time_factor.
  destruct (Z_le_dec 6 13); [destruct (Z_le_dec 13 20)|]; try lia.
  rewrite sin_mid_day. apply Rabs_R1.
Qed.

(** C4. Whatever the cloud cover, UV index and temperature, both estimates
    are exactly 0 when the hour is below 6 or above 20.  From 6 to 20
    inclusive the time factor is |sin((hour - 6) * pi / 14)|; it never
    exceeds its value 1 at hour 13, and takes that value at hour 13 only. *)
Theorem C4_night_is_zero_and_time_factor_shape
    (c u temp x : R) (t : datetime) (h : Z) :
  (hour_of t < 6 \/ 20 < hour_of t -> D c u t temp = 0) /\
  ((h < 6 \/ 20 < h)%Z -> E c u h = 0) /\
  (6 <= x <= 20 ->
     DashboardLive.time_factor x = Rabs (sin ((x - 6) * PI / 14))) /\
  ((6 <= h <= 20)%Z ->
     ExporterLive.time_factor h = Rabs (sin ((IZR h - 6) * PI / 14))) /\
  (DashboardLive.time_factor x <= DashboardLive.time_factor 13 /\
   DashboardLive.time_factor 13 = 1 /\
   (DashboardLive.time_factor x = 1 -> x = 13)) /\
  (ExporterLive.time_factor h <= ExporterLive.time_factor 13 /\
   ExporterLive.time_factor 13 = 1 /\
   (ExporterLive.time_factor h = 1 -> h = 13%Z)).
Proof.
  split; [|split; [|split; [|split; [|split; [split; [|split]|split; [|split]]]]]].
  - intros Hn. open_estimates. rewrite (dash_time_factor_night _ Hn).
    rewrite Rmult_0_r, Rmult_0_l. apply Rmax_left. lra.
  - intros Hn. open_estimates. rewrite (exp_time_factor_night _ Hn).
    rewrite Rmult_0_r. apply Rmax_left. lra.
  - intros [H6 H20]. unfold DashboardLive.time_factor.
    destruct (Rle_dec 6 x); [destruct (Rle_dec x 20)|]; lra || reflexivity.
  - intros [H6 H20]. unfold ExporterLive.time_factor.
    destruct (Z_le_dec 6 h); [destruct (Z_le_dec h 20)|]; lia || reflexivity.
  - rewrite dash_time_factor_13. apply dash_time_factor_range.
  - apply dash_time_factor_13.
  - apply dash_time_factor_peak.
  - rewrite exp_time_factor_13. apply exp_time_factor_range.
  - apply exp_time_factor_13.
  - apply exp_time_factor_peak.
Qed.

Lemma C4_witness :
  let late := {| dt_hour := 20; dt_minute := 30 |} in
  D 0 11 late 25 = 0 /\ E 0 11 5 = 0 /\
  DashboardLive.time_factor 9.5 = Rabs (sin ((9.5 - 6) * PI / 14)) /\
  ExporterLive.time_factor 20 = Rabs (sin ((20 - 6) * PI / 14)).
Proof.
  intro late.
  destruct (C4_night_is_zero_and_time_factor_shape 0 11 25 9.5 late 5)
    as (Hd & He & Hx & _).
  destruct (C4_night_is_zero_and_time_factor_shape 0 11 25 9.5 late 20)
    as (_ & _ & _ & Hh & _).
  split; [|split; [|split]].
  - apply Hd. right. unfold hour_of, late; simpl. lra.
  - apply He. left. lia.
  - apply Hx. lra.
  - apply Hh. lia.
Defined.

(** C8. With no cloud, UV index 11 and the clock at 13:00 each estimate is
    exactly its nameplate maximum: 5.0 kW in the dashboard (temperature at
    its default 25, UV divisor 10), 5000 W in the exporter (divisor 11). *)
Theorem C8_clear_noon_gives_nameplate :
  D 0 11 {| dt_hour := 13; dt_minute := 0 |} default_temp = 5.0 /\
  D 0 11 {| dt_hour := 13; dt_minute := 0 |} default_temp
    = DashboardLive.max_power /\
  E 0 11 13 = 5000 /\
  E 0 11 13 = ExporterLive.max_power.
Proof.
  assert (Hh : hour_of {| dt_hour := 13; dt_minute := 0 |} = 13)
    by (unfold hour_of; simpl; lra).
  assert (Hd : D 0 11 {| dt_hour := 13; dt_minute := 0 |} default_temp = 5.0).
  { open_estimates. rewrite Hh, dash_time_factor_13. unfold default_temp.
    replace (25 - 25) with 0 by lra. rewrite (Rmax_left 0 0) by lra.
    rewrite (Rmin_right (11 / 10) 1.0) by lra.
    rewrite Rmax_right; lra. }
  assert (He : E 0 11 13 = 5000).
  { open_estimates. rewrite exp_time_factor_13.
    rewrite (Rmin_right (11 / 11) 1.0) by lra.
    rewrite Rmax_right; lra. }
  unfold DashboardLive.max_power, ExporterLive.max_power. tauto.
Qed.

(** C7. The dashboard estimate is the specified formula with nameplate
    5.0, UV divisor 10 and the temperature derate
    1 - max(0, temp - 25) * 0.005; the exporter estimate is the same formula
    with nameplate 5000, UV divisor 11 and no derate (factor 1).  They are
    different functions: once the dashboard's kW are scaled to W the two
    disagree at clear sky, 13:00, 25 degrees and UV index 10 (divisor), and
    at UV index 11 and 35 degrees (derate). *)
Theorem C7_variants_differ :
  (forall c u t temp,
     D c u t temp
     = SpecFormula.estimate 5.0 10 c u (hour_of t) (SpecFormula.tempFactor temp)) /\
  (forall c u h,
     E c u h = SpecFormula.estimate 5000 11 c u (IZR h) 1) /\
  (exists c u t temp, 1000 * D c u t temp <> E c u (dt_hour t)) /\
  (let one_pm := {| dt_hour := 13; dt_minute := 0 |} in
   1000 * D 0 10 one_pm 25 = 5000 /\ E 0 10 13 = 50000 / 11 /\
   1000 * D 0 11 one_pm 35 = 4750 /\ E 0 11 13 = 5000).
Proof.
  assert (Hh : hour_of {| dt_hour := 13; dt_minute := 0 |} = 13)
    by (unfold hour_of; simpl; lra).
  assert (H1 : D 0 10 {| dt_hour := 13; dt_minute := 0 |} 25 = 5).
  { open_estimates. rewrite Hh, dash_time_factor_13.
    replace (25 - 25) with 0 by lra. rewrite (Rmax_left 0 0) by lra.
    rewrite (Rmin_left (10 / 10) 1.0) by lra.
    rewrite Rmax_right; lra. }
  assert (H2 : E 0 10 13 = 50000 / 11).
  { open_estimates. rewrite exp_time_factor_13.
    rewrite (Rmin_left (10 / 11) 1.0) by lra.
    rewrite Rmax_right; lra. }
  assert (H3 : D 0 11 {| dt_hour := 13; dt_minute := 0 |} 35 = 4.75).
  { open_estimates. rewrite Hh, dash_time_factor_13.
    rewrite (Rmax_right 0 (35 - 25)) by lra.
    rewrite (Rmin_right (11 / 10) 1.0) by lra.
    rewrite Rmax_right; lra. }
  assert (H4 : E 0 11 13 = 5000).
  { open_estimates. rewrite exp_time_factor_13.
    rewrite (Rmin_right (11 / 11) 1.0) by lra.
    rewrite Rmax_right; lra. }
  split; [|split; [|split]].
  - intros. reflexivity.
  - intros c u h. open_estimates. unfold SpecFormula.estimate.
    rewrite Rmult_1_r. f_equal. f_equal.
    unfold ExporterLive.time_factor, SpecFormula.timeFactor.
    destruct (Z_le_dec 6 h) as [a|a], (Rle_dec 6 (IZR h)) as [b|b].
    + destruct (Z_le_dec h 20) as [a'|a'], (Rle_dec (IZR h) 20) as [b'|b'];
        try reflexivity.
      * exfalso. apply b'. now apply IZR_le.
      * exfalso. apply a'. now apply le_IZR.
    + exfalso. apply b. now apply IZR_le.
    + exfalso. apply a. now apply le_IZR.
    + reflexivity.
  - exists 0, 10, {| dt_hour := 13; dt_minute := 0 |}, 25.
    simpl dt_hour. rewrite H1, H2. lra.
  - cbv zeta. rewrite H1, H2, H3, H4. lra.
Qed.

End EstimateClaims.

(** *** The batch cycle *)

Section BatchFacts.
Import Pandas PrometheusExporter Cycle.
Local Open Scope Q_scope.

Lemma hits_zip_length (cols : list string) (row : list number) (label : string) :
  length row = length cols ->
  length (hits (zip cols row) label) = occurrences label cols.
Proof.
  unfold hits, occurrences. rewrite length_map.
  revert row. induction cols as [|c cols IH]; intros [|v row] Hlen;
    simpl in *; try discriminate; [reflexivity|].
  destruct (String.eqb label c); simpl; rewrite IH by lia; reflexivity.
Qed.

Lemma row_values_length (df : DataFrame) (row : list number) :
  length (row_values df row) = length row.
Proof.
  unfold row_values. destruct (text_columns df); [reflexivity|].
  destruct (existsb is_float row); [apply length_map | reflexivity].
Qed.

Lemma rectangular_row (df : DataFrame) (row : list number) :
  rectangular df = true -> In row (rows df) ->
  length row = length (columns df).
Proof.
  unfold rectangular. rewrite forallb_forall. intros H Hin.
  apply Nat.eqb_eq. now apply H.
Qed.

Lemma not_empty_last (df : DataFrame) :
  empty df = false -> exists row, last (rows df) = Some row /\ In row (rows df).
Proof.
  unfold empty. destruct (rows df) as [|r rs] eqn:E; [discriminate|]. intros _.
  destruct (last (r :: rs)) as [row|] eqn:L.
  - exists row. split; [reflexivity|].
    apply list_elem_of_In. eapply list_elem_of_lookup_2.
    rewrite last_lookup in L. exact L.
  - apply last_None in L. discriminate.
Qed.

(** What a lookup in the last row gives, by the number of columns that
    carry the label. *)
Lemma lookup_cases (df : DataFrame) (row : list number) (label : string) :
  length row = length (columns df) ->
  let latest := zip (columns df) (row_values df row) in
  (lookup_failure df label = None /\
   exists x, getitem latest label = Some (Number x)) \/
  (lookup_failure df label = Some (KeyError label) /\
   getitem latest label = None) \/
  (lookup_failure df label = Some TypeError /\
   exists xs, getitem latest label = Some (SubSeries xs)).
Proof.
  intros Hlen latest.
  pose proof (hits_zip_length (columns df) (row_values df row) label) as Hh.
  rewrite row_values_length in Hh. specialize (Hh Hlen). fold latest in Hh.
  unfold lookup_failure, getitem. rewrite <- Hh.
  destruct (hits latest label) as [|x [|y xs]]; simpl.
  - right. left. now split.
  - left. split; [reflexivity | now exists x].
  - right. right. split; [reflexivity | now eexists].
Qed.

Lemma unique_columns_elem (df : DataFrame) (labels : list string)
    (label : string) :
  unique_columns df labels = true -> In label labels ->
  occurrences label (columns df) = 1%nat.
Proof.
  unfold unique_columns. rewrite forallb_forall. intros H Hin.
  apply Nat.eqb_eq. now apply H.
Qed.

Lemma lookup_unique (df : DataFrame) (row : list number) (label : string) :
  length row = length (columns df) ->
  occurrences label (columns df) = 1%nat ->
  exists x, getitem (zip (columns df) (row_values df row)) label
            = Some (Number x).
Proof.
  intros Hlen Hocc.
  destruct (lookup_cases df row label Hlen) as [[_ H]|[[H _]|[H _]]];
    [exact H | |]; unfold lookup_failure in H; rewrite Hocc in H; discriminate.
Qed.

Lemma column_sum_unique (df : DataFrame) (label : string) :
  occurrences label (columns df) = 1%nat ->
  column_sum df label
  = Some (Number (total (map (fun row =>
                                nth 0 (hits (zip (columns df) row) label)
                                    (Int64 0))
                             (rows df)))).
Proof. intros Hocc. unfold column_sum. rewrite Hocc. reflexivity. Qed.

Lemma number_at_Some (row : Series) (label : string) (x : number) :
  getitem row label = Some (Number x) -> number_at row label = Some x.
Proof. intros H. unfold number_at. now rewrite H. Qed.

Local Ltac step_py :=
  cbv beta iota delta
    [mbind Py_bind mret Py_ret or_raise item read set raise times].

(** A complete file: the cycle returns normally with every gauge set. *)
Lemma update_metrics_complete (file : csv_file) :
  complete file = true ->
  exists s cells,
    latest_sample file = Some s /\
    energy_column file = Some cells /\
    forall reg,
      update_metrics file reg = (Returned tt, publish s (total cells) reg).
Proof.
  unfold complete, latest_sample, latest, energy_column, update_metrics.
  destruct (load_pv_data file) as [df|]; [|discriminate].
  rewrite !andb_true_iff, negb_true_iff. intros [[Hne Hrect] Hcols].
  destruct (not_empty_last df Hne) as (row & Hlast & Hrow).
  pose proof (rectangular_row df row Hrect Hrow) as Hlen.
  assert (Hocc : forall label, In label required_columns ->
            occurrences label (columns df) = 1%nat).
  { intros label. now apply unique_columns_elem. }
  assert (Hget : forall label, In label required_columns ->
            exists x, getitem (zip (columns df) (row_values df row)) label
                      = Some (Number x)).
  { intros label Hl. apply lookup_unique; [exact Hlen | now apply Hocc]. }
  destruct (Hget "Leistung_DC_1 (W)"%string) as [dc1 H1]; [simpl; tauto|].
  destruct (Hget "Leistung_DC_2 (W)"%string) as [dc2 H2]; [simpl; tauto|].
  destruct (Hget "Leistung_AC (W)"%string) as [ac H3]; [simpl; tauto|].
  destruct (Hget "Energie_Heute (kWh)"%string) as [today H4]; [simpl; tauto|].
  destruct (Hget "Energie_Gesamt (kWh)"%string) as [gesamt H5]; [simpl; tauto|].
  destruct (Hget "Modultemperatur (°C)"%string) as [tmod H6]; [simpl; tauto|].
  destruct (Hget "Umgebungstemperatur (°C)"%string) as [tamb H7]; [simpl; tauto|].
  destruct (Hget "Spannung_DC_1 (V)"%string) as [v1 H8]; [simpl; tauto|].
  destruct (Hget "Spannung_DC_2 (V)"%string) as [v2 H9]; [simpl; tauto|].
  assert (Ho : occurrences "Energie_Heute (kWh)" (columns df) = 1%nat)
    by (apply Hocc; simpl; tauto).
  pose proof (column_sum_unique df "Energie_Heute (kWh)" Ho) as Hc.
  set (cells := map _ (rows df)) in Hc.
  exists {| Leistung_DC_1 := dc1; Leistung_DC_2 := dc2; Leistung_AC := ac;
            Energie_Heute := today; Energie_Gesamt := gesamt;
            Modultemperatur := tmod; Umgebungstemperatur := tamb;
            Spannung_DC_1 := v1; Spannung_DC_2 := v2 |}, cells.
  rewrite Hne. cbn [mbind option_bind]. unfold iloc_last. rewrite Hlast.
  cbn [fmap option_fmap option_map mbind option_bind].
  unfold sample_of.
  rewrite (number_at_Some _ _ _ H1), (number_at_Some _ _ _ H2),
    (number_at_Some _ _ _ H3), (number_at_Some _ _ _ H4),
    (number_at_Some _ _ _ H5), (number_at_Some _ _ _ H6),
    (number_at_Some _ _ _ H7), (number_at_Some _ _ _ H8),
    (number_at_Some _ _ _ H9), Ho.
  split; [reflexivity|]. split; [reflexivity|].
  intros reg. step_py. rewrite H1, H2, H3, H4, H5, H6, H7, H8, H9, Hc.
  unfold publish, efficiency_of, total_dc_of.
  cbn [Leistung_DC_1 Leistung_DC_2 Leistung_AC Energie_Heute Energie_Gesamt
       Modultemperatur Umgebungstemperatur Spannung_DC_1 Spannung_DC_2].
  destruct (Qlt_le_dec 0 (float (add dc1 dc2))); rewrite ?H3; reflexivity.
Qed.

Lemma update_metrics_unavailable (file : csv_file) (reg : gmap string Q) :
  unavailable file = true -> update_metrics file reg = (Returned tt, reg).
Proof.
  unfold unavailable, update_metrics.
  destruct (load_pv_data file) as [df|]; [|reflexivity].
  intros ->. reflexivity.
Qed.

(** *** Rules for [sound] *)

Section Sound.
Context {P : gmap string Q -> Prop}.

Lemma sound_ret {A} (a : A) : sound P (mret a).
Proof. intros reg HP. split; [exact HP | discriminate]. Qed.

Lemma sound_raise {A} (e : exn) :
  e <> KeyboardInterrupt -> sound P (raise (A := A) e).
Proof. intros He reg HP. split; [exact HP|]. simpl. congruence. Qed.

Lemma sound_or_raise {A} (e : exn) (x : option A) :
  e <> KeyboardInterrupt -> sound P (or_raise e x).
Proof.
  intros He. destruct x; [apply sound_ret | now apply sound_raise].
Qed.

Lemma sound_set (gauge : string) (v : py_value) :
  (forall q reg, P reg -> P (<[gauge := q]> reg)) -> sound P (set gauge v).
Proof.
  intros H. destruct v as [x|xs]; [|apply sound_raise; discriminate].
  intros reg HP. split; [now apply H | discriminate].
Qed.

Lemma sound_bind {A B} (m : Py A) (k : A -> Py B) :
  sound P m -> (forall a, sound P (k a)) -> sound P (m ≫= k).
Proof.
  intros Hm Hk reg HP. destruct (Hm reg HP) as [HP' Hne].
  unfold mbind, Py_bind. destruct (m reg) as [[a|e] reg']; simpl in *.
  - now apply Hk.
  - split; [exact HP'|]. intros [= ->]. now apply Hne.
Qed.

Lemma sound_read (latest : Series) (label : string) :
  sound P (read latest label).
Proof.
  apply sound_bind; [apply sound_or_raise; discriminate|].
  intros [x|xs]; [apply sound_ret | apply sound_raise; discriminate].
Qed.

Lemma update_metrics_sound (file : csv_file) :
  (forall gauge v reg, gauge ∈ gauge_names -> P reg -> P (<[gauge := v]> reg)) ->
  sound P (update_metrics file).
Proof.
  intros Hset. unfold update_metrics, item.
  destruct (load_pv_data file) as [df|]; [|apply sound_ret].
  destruct (empty df); [apply sound_ret|].
  repeat first
    [ apply sound_ret
    | apply sound_or_raise; discriminate
    | apply sound_read
    | apply sound_set; intros ? ?; apply Hset; unfold gauge_names;
      repeat constructor
    | apply sound_bind; [|intros ?]
    | destruct (Qlt_le_dec _ _) ].
Qed.

End Sound.

Lemma loop_body_continues (file : csv_file) (reg : gmap string Q) :
  fst (loop_body file reg) = Continue.
Proof.
  destruct (update_metrics_sound (P := fun _ => True) file
              (fun _ _ _ _ _ => I) reg I) as [_ Hne].
  unfold loop_body. destruct (update_metrics file reg) as [[u|e] reg'].
  - reflexivity.
  - destruct e; try reflexivity. now contradiction Hne.
Qed.

Lemma loop_body_cycle (file : csv_file) (reg : gmap string Q) :
  snd (loop_body file reg) = cycle file reg.
Proof.
  unfold loop_body, cycle.
  destruct (update_metrics file reg) as [[u|e] reg']; [reflexivity|].
  destruct e; reflexivity.
Qed.

Local Ltac gauge_lookup :=
  unfold publish, pv_power_dc1, pv_power_dc2, pv_power_ac, pv_energy_today,
    pv_energy_total, pv_module_temp, pv_ambient_temp, pv_voltage_dc1,
    pv_voltage_dc2, pv_total_dc_power, pv_efficiency, pv_exported_energy,
    pv_self_use_energy in *;
  repeat first
    [ rewrite lookup_insert_eq
    | rewrite lookup_insert_ne by discriminate
    | rewrite (lookup_insert_ne (<[_ := _]> _)) by discriminate ].

Local Ltac use_lookups :=
  repeat match goal with
         | H : lookup_failure _ _ = _ |- _ => rewrite H
         | H : getitem _ _ = _ |- _ => rewrite H
         end.

(** A run that stops at a lookup: what it raised and what it left. *)
Local Ltac stopped :=
  eexists; split;
  [ step_py; use_lookups; step_py; reflexivity
  | use_lookups; split; [intros _; gauge_lookup; reflexivity|];
    first [ reflexivity | gauge_lookup; eauto ] ].

(** Every run on a loaded frame with a row: its outcome is the first
    failure, if any; a run that fails leaves the last gauge alone; a run
    whose first lookup succeeds sets the first gauge, and one whose first
    lookup fails leaves the registry as it was. *)
Lemma cycle_cases (file : csv_file) (df : DataFrame) (reg : gmap string Q) :
  load_pv_data file = Some df ->
  empty df = false ->
  rectangular df = true ->
  exists reg',
    update_metrics file reg
    = (match first_failure df with
       | Some e => Raised e
       | None => Returned tt
       end, reg') /\
    (first_failure df <> None ->
     reg' !! pv_self_use_energy = reg !! pv_self_use_energy) /\
    match lookup_failure df "Leistung_DC_1 (W)" with
    | None => is_Some (reg' !! pv_power_dc1)
    | Some _ => reg' = reg
    end.
Proof.
  intros Hload Hne Hrect.
  destruct (not_empty_last df Hne) as (row & Hlast & Hrow).
  pose proof (rectangular_row df row Hrect Hrow) as Hlen.
  unfold update_metrics. rewrite Hload, Hne. unfold iloc_last. rewrite Hlast.
  cbn [fmap option_fmap option_map].
  unfold first_failure, required_columns. cbn [foldr].
  pose proof (lookup_cases df row) as Hprobe. cbv zeta in Hprobe.
  set (latest := zip (columns df) (row_values df row)) in *.
  destruct (Hprobe "Leistung_DC_1 (W)"%string Hlen)
    as [[E1 [x1 H1]]|[[E1 H1]|[E1 [xs1 H1]]]]; [|stopped..].
  destruct (Hprobe "Leistung_DC_2 (W)"%string Hlen)
    as [[E2 [x2 H2]]|[[E2 H2]|[E2 [xs2 H2]]]]; [|stopped..].
  destruct (Hprobe "Leistung_AC (W)"%string Hlen)
    as [[E3 [x3 H3]]|[[E3 H3]|[E3 [xs3 H3]]]]; [|stopped..].
  destruct (Hprobe "Energie_Heute (kWh)"%string Hlen)
    as [[E4 [x4 H4]]|[[E4 H4]|[E4 [xs4 H4]]]]; [|stopped..].
  destruct (Hprobe "Energie_Gesamt (kWh)"%string Hlen)
    as [[E5 [x5 H5]]|[[E5 H5]|[E5 [xs5 H5]]]]; [|stopped..].
  destruct (Hprobe "Modultemperatur (°C)"%string Hlen)
    as [[E6 [x6 H6]]|[[E6 H6]|[E6 [xs6 H6]]]]; [|stopped..].
  destruct (Hprobe "Umgebungstemperatur (°C)"%string Hlen)
    as [[E7 [x7 H7]]|[[E7 H7]|[E7 [xs7 H7]]]]; [|stopped..].
  destruct (Hprobe "Spannung_DC_1 (V)"%string Hlen)
    as [[E8 [x8 H8]]|[[E8 H8]|[E8 [xs8 H8]]]]; [|stopped..].
  destruct (Hprobe "Spannung_DC_2 (V)"%string Hlen)
    as [[E9 [x9 H9]]|[[E9 H9]|[E9 [xs9 H9]]]]; [|stopped..].
  assert (Ho : occurrences "Energie_Heute (kWh)" (columns df) = 1%nat).
  { unfold lookup_failure in E4.
    destruct (occurrences "Energie_Heute (kWh)" (columns df)) as [|[|n]];
      [discriminate | reflexivity | discriminate]. }
  pose proof (column_sum_unique df "Energie_Heute (kWh)" Ho) as Hc.
  destruct (Qlt_le_dec 0 (float (add x1 x2))) as [Hpos|Hpos] eqn:Eq;
    (eexists; split;
     [ step_py; use_lookups; step_py; rewrite Hc, Eq; use_lookups; reflexivity
     | use_lookups; split; [intros H; now contradiction H|];
       gauge_lookup; eauto ]).
Qed.

End BatchFacts.

(** *** Claims about the batch exporter and the gauge registries *)

Section BatchClaims.
Import Pandas PrometheusExporter Cycle.
Local Open Scope Q_scope.

Local Ltac gauge_names_unfold :=
  unfold pv_power_dc1, pv_power_dc2, pv_power_ac, pv_energy_today,
    pv_energy_total, pv_module_temp, pv_ambient_temp, pv_voltage_dc1,
    pv_voltage_dc2, pv_total_dc_power, pv_efficiency, pv_exported_energy,
    pv_self_use_energy in *.

Local Ltac publish_lookup :=
  unfold publish; gauge_names_unfold;
  repeat first
    [ rewrite lookup_insert_eq
    | rewrite lookup_insert_ne by discriminate
    | rewrite (lookup_insert_ne (<[_ := _]> _)) by discriminate ].

Lemma publish_written (s : Sample) (total : number) (name : string) :
  name ∈ gauge_names ->
  exists v, forall reg, publish s total reg !! name = Some v.
Proof.
  unfold gauge_names. intros H.
  repeat (apply elem_of_cons in H as [->|H]);
    [eexists; intros reg; publish_lookup; reflexivity ..|].
  now apply elem_of_nil in H.
Qed.

Lemma publish_latest_row (s : Sample) (t1 t2 : number) (reg : gmap string Q)
    (name : string) :
  name ∈ latest_row_gauges ->
  publish s t1 reg !! name = publish s t2 reg !! name.
Proof.
  unfold latest_row_gauges. intros H.
  repeat (apply elem_of_cons in H as [->|H]);
    [publish_lookup; reflexivity ..|].
  now apply elem_of_nil in H.
Qed.

Lemma cycle_complete (file : csv_file) :
  complete file = true ->
  exists s cells,
    latest_sample file = Some s /\
    energy_column file = Some cells /\
    forall reg,
      fst (update_metrics file reg) = Returned tt /\
      cycle file reg = publish s (total cells) reg.
Proof.
  intros Hc. destruct (update_metrics_complete file Hc) as (s & cells & Hs & He & Hu).
  exists s, cells. split; [exact Hs|]. split; [exact He|].
  intros reg. unfold cycle. rewrite Hu. split; reflexivity.
Qed.

Lemma wrap64_small (z : Z) : (- 2 ^ 63 <= z < 2 ^ 63)%Z -> wrap64 z = z.
Proof. intros H. unfold wrap64. rewrite Z.mod_small; lia. Qed.

(** Away from the int64 limits the sum of two readings is their sum. *)
Lemma add_exact (x y : number) :
  no_wrap x y -> float (add x y) == float x + float y.
Proof.
  destruct x as [a|p], y as [b|q]; cbn [float add no_wrap]; intros H;
    try reflexivity.
  rewrite wrap64_small by exact H. now rewrite inject_Z_plus.
Qed.

(** At the limits it is not: two integer readings of 2^62 add up to
    -2^63. *)
Lemma add_wraps :
  add (Int64 (2 ^ 62)) (Int64 (2 ^ 62)) = Int64 (- 2 ^ 63).
Proof. reflexivity. Qed.






Lemma first_failure_None (df : DataFrame) :
  first_failure df = None -> unique_columns df required_columns = true.
Proof.
  unfold first_failure, unique_columns, lookup_failure, required_columns.
  cbn [foldr forallb]. intros H.
  repeat match type of H with
         | context [occurrences ?l ?c] =>
             destruct (occurrences l c) as [|[|?]];
             [discriminate H | | discriminate H]
         end.
  reflexivity.
Qed.







Lemma dom_set_known {V} (names : list string) (gauge : string) (v : V)
    (reg : gmap string V) :
  gauge ∈ names ->
  dom reg = list_to_set names ->
  dom (<[gauge := v]> reg) = list_to_set names.
Proof.
  intros Hin Hdom. rewrite dom_insert_lookup_L; [exact Hdom|].
  apply elem_of_dom. rewrite Hdom. now apply elem_of_list_to_set.
Qed.

Lemma dom_Gauge_fold (names : list string) :
  dom (foldr Gauge ∅ names) = list_to_set names.
Proof.
  induction names as [|name names IH]; simpl.
  - apply dom_empty_L.
  - unfold Gauge at 1. now rewrite dom_insert_L, IH.
Qed.

Lemma batch_names_dom : dom registry_init = list_to_set gauge_names.
Proof.
  change registry_init with (foldr Gauge ∅ (reverse gauge_names)).
  rewrite dom_Gauge_fold. now rewrite reverse_Permutation.
Qed.

Lemma batch_set_keeps_names (gauge : string) (v : Q) (reg : gmap string Q) :
  gauge ∈ gauge_names ->
  dom reg = list_to_set gauge_names ->
  dom (<[gauge := v]> reg) = list_to_set gauge_names.
Proof. apply dom_set_known. Qed.

Lemma batch_cycle_keeps_names (file : csv_file) (reg : gmap string Q) :
  dom reg = list_to_set gauge_names ->
  dom (cycle file reg) = list_to_set gauge_names.
Proof.
  intros Hdom.
  apply (update_metrics_sound
           (P := fun r => dom r = list_to_set gauge_names) file); [|exact Hdom].
  intros gauge v r. apply batch_set_keeps_names.
Qed.

Lemma batch_loop_keeps_names (files : list csv_file) (reg : gmap string Q) :
  dom reg = list_to_set gauge_names ->
  dom (main_loop files reg) = list_to_set gauge_names.
Proof.
  revert reg. induction files as [|file files IH]; intros reg Hdom; [exact Hdom|].
  simpl. pose proof (loop_body_cycle file reg) as Hc.
  pose proof (batch_cycle_keeps_names file reg Hdom) as Hk.
  destruct (loop_body file reg) as [[] reg']; simpl in Hc; subst reg'.
  - now apply IH.
  - exact Hk.
Qed.

Lemma dom_live_Gauge_fold (names : list string) :
  dom (foldr ExporterLive.Gauge ∅ names) = list_to_set names.
Proof.
  induction names as [|name names IH]; simpl.
  - apply dom_empty_L.
  - unfold ExporterLive.Gauge at 1. now rewrite dom_insert_L, IH.
Qed.

Lemma live_names_dom :
  dom ExporterLive.registry_init = list_to_set ExporterLive.gauge_names.
Proof.
  change ExporterLive.registry_init
    with (foldr ExporterLive.Gauge ∅ (reverse ExporterLive.gauge_names)).
  rewrite dom_live_Gauge_fold. now rewrite reverse_Permutation.
Qed.

Lemma live_update_keeps_names (response : option ExporterLive.weather_json)
    (now_hour : Z) (reg : gmap string R) :
  dom reg = list_to_set ExporterLive.gauge_names ->
  dom (ExporterLive.fetch_and_update_metrics response now_hour reg)
  = list_to_set ExporterLive.gauge_names.
Proof.
  intros Hdom. destruct response as [data|]; [|exact Hdom].
  unfold ExporterLive.fetch_and_update_metrics, ExporterLive.set.
  cbv zeta.
  repeat (apply dom_set_known;
          [unfold ExporterLive.gauge_names; repeat constructor|]).
  exact Hdom.
Qed.

Lemma live_loop_keeps_names (polls : list (option ExporterLive.weather_json * Z))
    (reg : gmap string R) :
  dom reg = list_to_set ExporterLive.gauge_names ->
  dom (ExporterLive.poll_loop polls reg) = list_to_set ExporterLive.gauge_names.
Proof.
  revert reg. induction polls as [|[response now_hour] polls IH];
    intros reg Hdom; [exact Hdom|].
  simpl. apply IH. now apply live_update_keeps_names.
Qed.

(** C9. In both exporters the registry holds exactly the gauge names
    created at start-up, after any number of loop turns and whatever each
    turn read; one more update step leaves the set of names as it is, so no
    name is ever added or removed after initialisation. *)
Theorem C9_gauge_names_fixed
    (files : list csv_file) (file : csv_file)
    (polls : list (option ExporterLive.weather_json * Z))
    (response : option ExporterLive.weather_json) (now_hour : Z) :
  (dom registry_init = list_to_set gauge_names /\
   dom (main_loop files registry_init) = dom registry_init /\
   dom (cycle file (main_loop files registry_init))
   = dom (main_loop files registry_init)) /\
  (dom ExporterLive.registry_init = list_to_set ExporterLive.gauge_names /\
   dom (ExporterLive.poll_loop polls ExporterLive.registry_init)
   = dom ExporterLive.registry_init /\
   dom (ExporterLive.fetch_and_update_metrics response now_hour
          (ExporterLive.poll_loop polls ExporterLive.registry_init))
   = dom (ExporterLive.poll_loop polls ExporterLive.registry_init)).
Proof.
  pose proof (batch_loop_keeps_names files registry_init batch_names_dom) as Hb.
  pose proof (live_loop_keeps_names polls _ live_names_dom) as Hl.
  split; (split; [|split]).
  - exact batch_names_dom.
  - now rewrite Hb, batch_names_dom.
  - rewrite Hb. now apply batch_cycle_keeps_names.
  - exact live_names_dom.
  - now rewrite Hl, live_names_dom.
  - rewrite Hl. now apply live_update_keeps_names.
Qed.

End BatchClaims.

(** *** What a batch cycle writes, raises and forgets *)

Section CycleLogFacts.
Import Pandas PrometheusExporter Cycle CycleLog.
Local Open Scope Q_scope.

Lemma lookup_apply_writes (writes : list (string * Q)) (reg : gmap string Q)
    (gauge : string) :
  apply_writes writes reg !! gauge
  = match last_write writes gauge with
    | Some v => Some v
    | None => reg !! gauge
    end.
Proof.
  revert reg. induction writes as [|[g v] writes IH]; intros reg; [reflexivity|].
  unfold apply_writes in *. simpl. rewrite IH.
  destruct (last_write writes gauge); [reflexivity|].
  destruct (String.eqb g gauge) eqn:E.
  - apply String.eqb_eq in E as ->. apply lookup_insert_eq.
  - apply String.eqb_neq in E. now apply lookup_insert_ne.
Qed.

Lemma apply_writes_app (ws1 ws2 : list (string * Q)) (reg : gmap string Q) :
  apply_writes (ws1 ++ ws2) reg = apply_writes ws2 (apply_writes ws1 reg).
Proof. unfold apply_writes. apply foldl_app. Qed.

Lemma apply_writes_twice (writes : list (string * Q)) (reg : gmap string Q) :
  apply_writes writes (apply_writes writes reg) = apply_writes writes reg.
Proof.
  apply map_eq. intros gauge. rewrite !lookup_apply_writes.
  destruct (last_write writes gauge); reflexivity.
Qed.

Lemma last_write_outside (names : list string) (writes : list (string * Q))
    (gauge : string) :
  Forall (fun w => w.1 ∈ names) writes -> gauge ∉ names ->
  last_write writes gauge = None.
Proof.
  intros Hall Hout. induction Hall as [|[g v] writes Hg _ IH]; [reflexivity|].
  simpl. rewrite IH. destruct (String.eqb g gauge) eqn:E; [|reflexivity].
  apply String.eqb_eq in E. subst g. contradiction.
Qed.

Section WritesTo.
Context (names : list string).

Lemma writes_to_ret {A} (a : A) : writes_to names (mret a).
Proof. exists (Returned a), []. split; [constructor | reflexivity]. Qed.

Lemma writes_to_raise {A} (e : exn) : writes_to names (raise (A := A) e).
Proof. exists (Raised e), []. split; [constructor | reflexivity]. Qed.

Lemma writes_to_or_raise {A} (e : exn) (x : option A) :
  writes_to names (or_raise e x).
Proof. destruct x as [a|]; [apply writes_to_ret | apply writes_to_raise]. Qed.

Lemma writes_to_set (gauge : string) (v : py_value) :
  gauge ∈ names -> writes_to names (set gauge v).
Proof.
  intros Hin. destruct v as [x|xs]; [|apply writes_to_raise].
  exists (Returned tt), [(gauge, float x)].
  split; [repeat constructor; exact Hin | reflexivity].
Qed.

Lemma writes_to_bind {A B} (m : Py A) (k : A -> Py B) :
  writes_to names m -> (forall a, writes_to names (k a)) ->
  writes_to names (m ≫= k).
Proof.
  intros (o & ws & Hws & Hm) Hk. destruct o as [a|e].
  - destruct (Hk a) as (o' & ws' & Hws' & Hka).
    exists o', (ws ++ ws'). split; [now apply Forall_app|].
    intros reg. unfold mbind, Py_bind. rewrite Hm, Hka.
    now rewrite apply_writes_app.
  - exists (Raised e), ws. split; [exact Hws|].
    intros reg. unfold mbind, Py_bind. now rewrite Hm.
Qed.

Lemma writes_to_read (latest : Series) (label : string) :
  writes_to names (read latest label).
Proof.
  apply writes_to_bind; [apply writes_to_or_raise|].
  intros [x|xs]; [apply writes_to_ret | apply writes_to_raise].
Qed.

End WritesTo.

Lemma update_metrics_writes_to (file : csv_file) :
  writes_to gauge_names (update_metrics file).
Proof.
  unfold update_metrics, item.
  destruct (load_pv_data file) as [df|]; [|apply writes_to_ret].
  destruct (empty df); [apply writes_to_ret|].
  repeat first
    [ apply writes_to_ret
    | apply writes_to_or_raise
    | apply writes_to_read
    | apply writes_to_set; unfold gauge_names; repeat constructor
    | apply writes_to_bind; [|intros ?]
    | destruct (Qlt_le_dec _ _) ].
Qed.

(** X1. Running the cycle again on the same file changes nothing: the
    second run ends the same way and leaves the registry as the first run
    left it, also when the run raises part-way. *)
Theorem X1_cycle_idempotent (file : csv_file) (reg : gmap string Q) :
  update_metrics file (cycle file reg) = update_metrics file reg.
Proof.
  destruct (update_metrics_writes_to file) as (o & ws & _ & Hu).
  unfold cycle. rewrite !Hu. simpl. now rewrite apply_writes_twice.
Qed.

(** X2. Whether a cycle returns or raises, and which exception it raises,
    depends on the file only, not on what the registry holds; and a cycle
    leaves every registry entry other than the thirteen gauges as it
    was. *)
Theorem X2_cycle_outcome_and_frame
    (file : csv_file) (reg1 reg2 : gmap string Q) (name : string) :
  fst (update_metrics file reg1) = fst (update_metrics file reg2) /\
  (name ∉ gauge_names -> cycle file reg1 !! name = reg1 !! name).
Proof.
  destruct (update_metrics_writes_to file) as (o & ws & Hws & Hu).
  split; [now rewrite !Hu|].
  intros Hout. unfold cycle. rewrite Hu. simpl.
  rewrite lookup_apply_writes.
  now rewrite (last_write_outside gauge_names ws name Hws Hout).
Qed.

Lemma X2_witness :
  ("uptime_seconds" ∉ gauge_names) /\
  (cycle (Parsed only_dc1) (<["uptime_seconds" := 7]> registry_init)
     !! "uptime_seconds") = Some 7.
Proof.
  assert (Hout : "uptime_seconds" ∉ gauge_names).
  { unfold gauge_names. intros H.
    repeat (apply elem_of_cons in H as [H|H]; [discriminate H|]).
    now apply elem_of_nil in H. }
  split; [exact Hout|].
  destruct (X2_cycle_outcome_and_frame (Parsed only_dc1)
              (<["uptime_seconds" := 7]> registry_init) registry_init
              "uptime_seconds") as [_ H].
  rewrite (H Hout). apply lookup_insert_eq.
Defined.

End CycleLogFacts.

(** *** Outcome of a cycle and what it keeps of earlier turns *)

Section CycleOutcome.
Import Pandas PrometheusExporter Cycle CycleLog.
Local Open Scope Q_scope.

Local Ltac gauge_lookup :=
  unfold publish, pv_power_dc1, pv_power_dc2, pv_power_ac, pv_energy_today,
    pv_energy_total, pv_module_temp, pv_ambient_temp, pv_voltage_dc1,
    pv_voltage_dc2, pv_total_dc_power, pv_efficiency, pv_exported_energy,
    pv_self_use_energy in *;
  repeat first
    [ rewrite lookup_insert_eq
    | rewrite lookup_insert_ne by discriminate
    | rewrite (lookup_insert_ne (<[_ := _]> _)) by discriminate ].

Lemma unique_columns_no_failure (df : DataFrame) :
  unique_columns df required_columns = true -> first_failure df = None.
Proof.
  intros H.
  assert (Hocc : forall label, In label required_columns ->
            lookup_failure df label = None).
  { intros label Hl. unfold lookup_failure.
    now rewrite (unique_columns_elem df required_columns label H Hl). }
  unfold first_failure, required_columns. cbn [foldr].
  rewrite !Hocc by (simpl; tauto). reflexivity.
Qed.

Lemma first_failure_kind (df : DataFrame) (e : exn) :
  first_failure df = Some e ->
  e = TypeError \/ exists label, In label required_columns /\ e = KeyError label.
Proof.
  unfold first_failure.
  induction required_columns as [|label labels IH]; [discriminate|].
  cbn [foldr]. unfold lookup_failure at 1.
  destruct (occurrences label (columns df)) as [|[|n]].
  - intros [= <-]. right. exists label. split; [now left | reflexivity].
  - intros H. destruct (IH H) as [->|(l & Hl & ->)]; [now left|].
    right. exists l. split; [now right | reflexivity].
  - intros [= <-]. now left.
Qed.



Lemma cycle_frame (file : csv_file) (reg : gmap string Q) (name : string) :
  name ∉ gauge_names -> cycle file reg !! name = reg !! name.
Proof.
  destruct (update_metrics_writes_to file) as (o & ws & Hws & Hu).
  intros Hout. unfold cycle. rewrite Hu. simpl.
  rewrite lookup_apply_writes.
  now rewrite (last_write_outside gauge_names ws name Hws Hout).
Qed.

Lemma dom_names_outside (names : list string) (reg : gmap string Q)
    (name : string) :
  dom reg = list_to_set names -> name ∉ names -> reg !! name = None.
Proof.
  intros Hdom Hout. apply not_elem_of_dom. rewrite Hdom.
  now rewrite elem_of_list_to_set.
Qed.





End CycleOutcome.

(** *** The live exporter's update on any response body *)

Section LiveFetchFacts.
Import LiveFetch.
Local Open Scope R_scope.

Local Abbreviation E := ExporterLive.calculate_estimated_solar_power.

Local Ltac run_try :=
  cbv beta iota delta
    [fetch_and_update_metrics try_block mbind Try_bind mret Try_ret eval set
     store snd fst].

Local Ltac live_lookup :=
  unfold ExporterLive.pv_estimated_power_watts,
    ExporterLive.pv_cloud_cover_percent, ExporterLive.pv_temperature_celsius,
    ExporterLive.pv_humidity_percent, ExporterLive.pv_wind_speed_mps,
    ExporterLive.pv_uv_index, ExporterLive.pv_efficiency_percent in *;
  repeat first
    [ rewrite lookup_insert_eq
    | rewrite lookup_insert_ne by discriminate
    | rewrite (lookup_insert_ne (<[_ := _]> _)) by discriminate ].

Lemma exporter_estimate_uv5 (c : R) (h : Z) :
  0 <= c <= 100 -> 0 <= E c 5 h <= 25000 / 11.
Proof.
  intros Hc. unfold ExporterLive.calculate_estimated_solar_power,
    ExporterLive.max_power. cbv zeta.
  split; [apply Rmax_l|].
  rewrite (Rmin_left (5 / 11) 1.0) by lra.
  replace (5000 * ((100 - c) / 100) * (5 / 11) * ExporterLive.time_factor h)
    with (25000 / 11 * ((100 - c) / 100) * 1 * ExporterLive.time_factor h * 1)
    by lra.
  apply clamp_le_nameplate; try lra. apply exp_time_factor_range.
Qed.

(** A run of the [try] block whose seven [set] calls all go through. *)
Lemma try_block_all_set (data : json) (r : readings) (c t hu w : R)
    (now_hour : Z) (reg : gmap string R) :
  extract data = inr r ->
  number (cloud_cover r) = inr c ->
  float (cloud_cover r) = inr c ->
  float (temp r) = inr t ->
  float (humidity r) = inr hu ->
  float (wind_speed r) = inr w ->
  fetch_and_update_metrics (Some data) now_hour reg
  = <[ExporterLive.pv_efficiency_percent := (100 - c) * 0.8]>
    (<[ExporterLive.pv_uv_index := 5]>
    (<[ExporterLive.pv_wind_speed_mps := w]>
    (<[ExporterLive.pv_humidity_percent := hu]>
    (<[ExporterLive.pv_temperature_celsius := t]>
    (<[ExporterLive.pv_cloud_cover_percent := c]>
    (<[ExporterLive.pv_estimated_power_watts := E c 5 now_hour]> reg)))))).
Proof.
  intros Hx Hn Hc Ht Hh Hw. run_try. rewrite Hx, Hn. cbn [float].
  rewrite Hc, Ht, Hh, Hw. now destruct (format_f (temp r)).
Qed.

(** X8. After a fetch whose body gives a number between 0 and 100 as cloud
    cover and values [float()] accepts as temperature, humidity and wind
    speed, the live exporter's power gauge lies between 0 and 25000/11 W
    (under 2273 W: the UV index is fixed at 5, so the 5000 W nameplate is
    never reached), its UV gauge holds 5, its cloud gauge the cloud cover,
    and its efficiency gauge (100 - cloud cover) * 0.8, between 0 and
    80. *)
Theorem X8_live_exporter_published_ranges
    (data : json) (r : readings) (c t hu w : R) (now_hour : Z)
    (reg : gmap string R) :
  extract data = inr r ->
  cloud_cover r = JNumber c ->
  0 <= c <= 100 ->
  float (temp r) = inr t ->
  float (humidity r) = inr hu ->
  float (wind_speed r) = inr w ->
  let reg' := fetch_and_update_metrics (Some data) now_hour reg in
  exists p e,
    reg' !! ExporterLive.pv_estimated_power_watts = Some p /\
    0 <= p <= 25000 / 11 /\
    reg' !! ExporterLive.pv_uv_index = Some 5 /\
    reg' !! ExporterLive.pv_cloud_cover_percent = Some c /\
    reg' !! ExporterLive.pv_temperature_celsius = Some t /\
    reg' !! ExporterLive.pv_efficiency_percent = Some e /\
    e = (100 - c) * 0.8 /\ 0 <= e <= 80.
Proof.
  intros Hx Hcl Hc Ht Hh Hw reg'. subst reg'.
  rewrite (try_block_all_set data r c t hu w now_hour reg Hx)
    by (assumption || (rewrite Hcl; reflexivity)).
  exists (E c 5 now_hour), ((100 - c) * 0.8).
  split; [live_lookup; reflexivity|].
  split; [now apply exporter_estimate_uv5|].
  split; [live_lookup; reflexivity|].
  split; [live_lookup; reflexivity|].
  split; [live_lookup; reflexivity|].
  split; [live_lookup; reflexivity|].
  split; [reflexivity | lra].
Qed.

Lemma X8_witness :
  let reg' := fetch_and_update_metrics (Some clear_body) 13
                ExporterLive.registry_init in
  exists p e,
    reg' !! ExporterLive.pv_estimated_power_watts = Some p /\
    0 <= p <= 25000 / 11 /\
    reg' !! ExporterLive.pv_temperature_celsius = Some 21 /\
    reg' !! ExporterLive.pv_efficiency_percent = Some e /\ e = 48.
Proof.
  intros reg'.
  destruct (X8_live_exporter_published_ranges clear_body
              {| cloud_cover := JNumber 40; temp := JNumber 21;
                 humidity := JNumber 55; wind_speed := JNumber 3 |}
              40 21 55 3 13 ExporterLive.registry_init eq_refl eq_refl)
    as (p & e & Hp & Hpr & _ & _ & Ht & He & Hev & _);
    [lra | reflexivity | reflexivity | reflexivity |].
  exists p, e. split; [exact Hp|]. split; [exact Hpr|].
  split; [exact Ht|]. split; [exact He | lra].
Defined.


Lemma get_absent (items : list (string * json)) (key : string) (dflt : json) :
  Forall (fun item => item.1 <> key) items ->
  get (JObject items) key dflt = inr dflt.
Proof.
  intros H. unfold get. f_equal.
  replace (List.filter (fun item => String.eqb key item.1) items)
    with (@nil (string * json)); [reflexivity|].
  induction H as [|item items Hne _ IH]; [reflexivity|].
  simpl. destruct (String.eqb_spec key item.1) as [->|_]; [now contradiction Hne|].
  exact IH.
Qed.



Lemma number_float (v : json) (c : R) : number v = inr c -> float v = inr c.
Proof. destruct v as [|b|x|s| |items]; try discriminate; intros H; exact H. Qed.

Lemma dom_set_all (names : list string) (updates : list (string * R))
    (reg : gmap string R) :
  Forall (fun u => u.1 ∈ names) updates ->
  dom reg = list_to_set names ->
  dom (set_all updates reg) = list_to_set names.
Proof.
  intros Hall. revert reg. unfold set_all.
  induction Hall as [|u updates Hu _ IH]; intros reg Hdom; [exact Hdom|].
  simpl. apply IH. now apply dom_set_known.
Qed.

Lemma zip_names (names : list string) (values : list R) :
  Forall (fun u => u.1 ∈ names) (zip names values).
Proof.
  apply Forall_forall. intros [name v] Hin. simpl.
  now apply elem_of_zip_l in Hin.
Qed.

(** On a body whose fields are numbers the update is the one of
    [ExporterLive.fetch_and_update_metrics]: all seven gauges are set. *)
Lemma numeric_body_agrees (response : option ExporterLive.weather_json)
    (now_hour : Z) (reg : gmap string R) :
  fetch_and_update_metrics (numeric_body <$> response) now_hour reg
  = ExporterLive.fetch_and_update_metrics response now_hour reg.
Proof.
  destruct response as [[cl te hu wi]|]; [|reflexivity].
  destruct cl, te, hu, wi; reflexivity.
Qed.

(** X10. Whatever the response, the live exporter's update sets the first
    few gauges, in the order of the source, and leaves the others as they
    were: all seven when the [try] block runs to its end, none when the
    request failed, the body is not an object of objects or its cloud
    cover is not a number.  The set of gauge names stays the same. *)
Theorem X10_live_fetch_sets_a_prefix
    (response : option json) (now_hour : Z) (reg : gmap string R) :
  let reg' := fetch_and_update_metrics response now_hour reg in
  (exists values : list R,
     reg' = set_all (zip ExporterLive.gauge_names values) reg /\
     (fst (try_block response now_hour reg) = inr tt ->
      length values = 7%nat)) /\
  (response = None -> reg' = reg) /\
  (forall data e,
     response = Some data ->
     extract data = inl e \/
     (exists r, extract data = inr r /\ number (cloud_cover r) = inl e) ->
     reg' = reg) /\
  (dom reg = list_to_set ExporterLive.gauge_names -> dom reg' = dom reg).
Proof.
  intros reg'.
  assert (Hprefix : exists values : list R,
            reg' = set_all (zip ExporterLive.gauge_names values) reg /\
            (fst (try_block response now_hour reg) = inr tt ->
             length values = 7%nat)).
  { subst reg'. destruct response as [data|];
      [|exists []; split; [reflexivity | discriminate]].
    run_try.
    destruct (extract data) as [e|r];
      [exists []; split; [reflexivity | discriminate]|].
    destruct (number (cloud_cover r)) as [e|c] eqn:Hn;
      [exists []; split; [reflexivity | discriminate]|].
    cbn [float]. rewrite (number_float _ _ Hn).
    destruct (float (temp r)) as [e|t];
      [eexists [_; _]; split; [reflexivity | discriminate]|].
    destruct (float (humidity r)) as [e|hu];
      [eexists [_; _; _]; split; [reflexivity | discriminate]|].
    destruct (float (wind_speed r)) as [e|w];
      [eexists [_; _; _; _]; split; [reflexivity | discriminate]|].
    eexists [_; _; _; _; _; _; _].
    split; [|reflexivity]. now destruct (format_f (temp r)). }
  split; [exact Hprefix|]. split; [|split].
  - intros ->. reflexivity.
  - intros data e -> [Hx|(r & Hx & Hn)]; subst reg'; run_try; rewrite Hx;
      [reflexivity|]. now rewrite Hn.
  - intros Hdom. destruct Hprefix as (values & -> & _). rewrite Hdom.
    apply dom_set_all; [apply zip_names | exact Hdom].
Qed.

Lemma X10_witness :
  let reg' := fetch_and_update_metrics (Some null_temp_body) 13
                ExporterLive.registry_init in
  fst (try_block (Some null_temp_body) 13 ExporterLive.registry_init)
    = inl TypeError /\
  reg' !! ExporterLive.pv_cloud_cover_percent = Some 40 /\
  reg' !! ExporterLive.pv_temperature_celsius = Some 0 /\
  reg' !! ExporterLive.pv_efficiency_percent = Some 0 /\
  dom reg' = dom ExporterLive.registry_init.
Proof.
  intros reg'.
  destruct (X10_live_fetch_sets_a_prefix (Some null_temp_body) 13
              ExporterLive.registry_init) as (_ & _ & _ & Hdom).
  split; [reflexivity|].
  split; [subst reg'; run_try; cbn; live_lookup; reflexivity|].
  split; [subst reg'; run_try; cbn; live_lookup; reflexivity|].
  split; [subst reg'; run_try; cbn; live_lookup; reflexivity|].
  apply Hdom, live_names_dom.
Defined.

End LiveFetchFacts.

(** *** Stripping the column labels *)

Section StripFacts.
Import Pandas PrometheusExporter Cycle.

Lemma lstrip_cases (s : string) :
  lstrip s = s \/
  exists t, (String.length t < String.length s)%nat /\ lstrip s = lstrip t.
Proof.
  destruct s as [|a [|b [|c s3]]]; cbn [lstrip].
  - now left.
  - destruct (space1 a); [right; exists EmptyString; simpl; split; [lia | reflexivity]|].
    now left.
  - destruct (space1 a);
      [right; exists (String b EmptyString); simpl; split; [lia | reflexivity]|].
    destruct (space2 a b);
      [right; exists EmptyString; simpl; split; [lia | reflexivity]|].
    now left.
  - destruct (space1 a);
      [right; exists (String b (String c s3)); simpl; split; [lia | reflexivity]|].
    destruct (space2 a b);
      [right; exists (String c s3); simpl; split; [lia | reflexivity]|].
    destruct (space3 a b c);
      [right; exists s3; simpl; split; [lia | reflexivity]|].
    now left.
Qed.

Lemma lstrip_length (s : string) :
  (String.length (lstrip s) <= String.length s)%nat.
Proof.
  remember (String.length s) as n eqn:Hn. revert s Hn.
  induction n as [n IH] using lt_wf_ind. intros s ->.
  destruct (lstrip_cases s) as [->|(t & Hlt & ->)]; [lia|].
  specialize (IH _ Hlt t eq_refl). lia.
Qed.

Lemma lstrip_idempotent (s : string) : lstrip (lstrip s) = lstrip s.
Proof.
  remember (String.length s) as n eqn:Hn. revert s Hn.
  induction n as [n IH] using lt_wf_ind. intros s ->.
  destruct (lstrip_cases s) as [H|(t & Hlt & H)]; rewrite H.
  - exact H.
  - exact (IH _ Hlt t eq_refl).
Qed.

(** A string that [lstrip] keeps whole does not start with whitespace. *)
Lemma lstrip_fixed_head (a : ascii) (s1 : string) :
  lstrip (String a s1) = String a s1 ->
  space1 a = false /\
  match s1 with
  | EmptyString => True
  | String b s2 =>
      space2 a b = false /\
      match s2 with
      | EmptyString => True
      | String c s3 => space3 a b c = false
      end
  end.
Proof.
  intros H.
  assert (Hshort : forall t,
            (String.length t < String.length (String a s1))%nat ->
            lstrip (String a s1) <> lstrip t).
  { intros t Hlt E. pose proof (lstrip_length t) as Hl.
    rewrite <- E, H in Hl. lia. }
  destruct s1 as [|b [|c s3]]; cbn [lstrip] in Hshort.
  - destruct (space1 a); [|now split].
    exfalso. apply (Hshort EmptyString); [simpl; lia | reflexivity].
  - destruct (space1 a).
    { exfalso. apply (Hshort (String b EmptyString)); [simpl; lia | reflexivity]. }
    destruct (space2 a b); [|now repeat split].
    exfalso. apply (Hshort EmptyString); [simpl; lia | reflexivity].
  - destruct (space1 a).
    { exfalso. apply (Hshort (String b (String c s3))); [simpl; lia | reflexivity]. }
    destruct (space2 a b).
    { exfalso. apply (Hshort (String c s3)); [simpl; lia | reflexivity]. }
    destruct (space3 a b c); [|now repeat split].
    exfalso. apply (Hshort s3); [simpl; lia | reflexivity].
Qed.

Lemma lstrip_eq (a : ascii) (s1 : string) :
  lstrip (String a s1)
  = if space1 a then lstrip s1 else
    match s1 with
    | EmptyString => String a s1
    | String b s2 =>
        if space2 a b then lstrip s2 else
        match s2 with
        | EmptyString => String a s1
        | String c s3 => if space3 a b c then lstrip s3 else String a s1
        end
    end.
Proof. reflexivity. Qed.

Lemma lstrip_app (x y : string) :
  lstrip x = EmptyString -> lstrip (x +:+ y) = lstrip y.
Proof.
  remember (String.length x) as n eqn:Hn. revert x Hn.
  induction n as [n IH] using lt_wf_ind. intros x -> H.
  destruct x as [|a x1]; [reflexivity|].
  change (String a x1 +:+ y) with (String a (x1 +:+ y)).
  rewrite lstrip_eq in H. rewrite lstrip_eq.
  destruct (space1 a).
  { apply (IH (String.length x1)); [simpl; lia | reflexivity | exact H]. }
  destruct x1 as [|b x2]; [discriminate|].
  change (String b x2 +:+ y) with (String b (x2 +:+ y)). cbv beta iota.
  destruct (space2 a b).
  { apply (IH (String.length x2)); [simpl; lia | reflexivity | exact H]. }
  destruct x2 as [|c x3]; [discriminate|].
  change (String c x3 +:+ y) with (String c (x3 +:+ y)). cbv beta iota.
  destruct (space3 a b c); [|discriminate].
  apply (IH (String.length x3)); [simpl; lia | reflexivity | exact H].
Qed.

Lemma all_space_app (x y : string) :
  all_space x = true -> all_space (x +:+ y) = all_space y.
Proof.
  unfold all_space. intros H.
  rewrite lstrip_app; [reflexivity|]. now destruct (lstrip x).
Qed.

Lemma rstrip_split (s : string) :
  exists r, s = rstrip s +:+ r /\ all_space r = true.
Proof.
  induction s as [|a s IH]; [now exists EmptyString|].
  cbn [rstrip]. destruct (all_space (String a s)) eqn:E.
  - now exists (String a s).
  - destruct IH as (r & Hs & Hr). exists r. split; [|exact Hr].
    change (String a (rstrip s) +:+ r) with (String a (rstrip s +:+ r)).
    now rewrite <- Hs.
Qed.

Lemma rstrip_idempotent (s : string) : rstrip (rstrip s) = rstrip s.
Proof.
  induction s as [|a s IH]; [reflexivity|].
  cbn [rstrip]. destruct (all_space (String a s)) eqn:E; [reflexivity|].
  cbn [rstrip]. rewrite IH.
  destruct (all_space (String a (rstrip s))) eqn:E'; [|reflexivity].
  destruct (rstrip_split s) as (r & Hs & Hr).
  pose proof (all_space_app (String a (rstrip s)) r E') as H.
  change (String a (rstrip s) +:+ r) with (String a (rstrip s +:+ r)) in H.
  rewrite <- Hs in H. congruence.
Qed.

Lemma rstrip_cons (b : ascii) (t p : string) :
  rstrip t = String b p -> exists t', t = String b t' /\ p = rstrip t'.
Proof.
  destruct t as [|b0 t']; [discriminate|]. cbn [rstrip].
  destruct (all_space (String b0 t')); [discriminate|].
  intros [= -> <-]. now exists t'.
Qed.

Lemma lstrip_rstrip_fixed (t : string) :
  lstrip t = t -> lstrip (rstrip t) = rstrip t.
Proof.
  destruct t as [|a t1]; [reflexivity|]. intros H.
  destruct (lstrip_fixed_head a t1 H) as [H1 Hrest].
  cbn [rstrip]. unfold all_space. rewrite H.
  destruct (rstrip t1) as [|b p1] eqn:Ep.
  - cbn [lstrip]. now rewrite H1.
  - apply rstrip_cons in Ep as (t2 & -> & ->). destruct Hrest as [H2 Hrest].
    destruct (rstrip t2) as [|c p2] eqn:Ep2.
    + cbn [lstrip]. now rewrite H1, H2.
    + apply rstrip_cons in Ep2 as (t3 & -> & ->).
      cbn [lstrip]. now rewrite H1, H2, Hrest.
Qed.

Lemma strip_idempotent (s : string) : strip (strip s) = strip s.
Proof.
  unfold strip.
  rewrite (lstrip_rstrip_fixed (lstrip s)) by apply lstrip_idempotent.
  apply rstrip_idempotent.
Qed.

(** X6. The labels of a loaded frame carry no leading or trailing
    whitespace: stripping them once more changes nothing, and the loader
    touches neither the number of columns nor the rows.  The padding that
    goes may be ASCII or Unicode whitespace (a blank, a no-break space);
    bytes inside a label that belong to another character (the degree
    sign) stay. *)
Theorem X6_loaded_labels_are_stripped (df : DataFrame) :
  (exists df',
     load_pv_data (Parsed df) = Some df' /\
     Forall (fun label => strip label = label) (columns df') /\
     length (columns df') = length (columns df) /\
     rows df' = rows df) /\
  strip_columns (strip_columns df) = strip_columns df /\
  strip " Leistung_DC_1 (W)" = "Leistung_DC_1 (W)"%string /\
  strip ("Leistung_DC_2 (W)" +:+ nbsp) = "Leistung_DC_2 (W)"%string /\
  strip "Modultemperatur (°C)" = "Modultemperatur (°C)"%string.
Proof.
  split; [|split; [|split; [|split]]]; try reflexivity.
  - exists (strip_columns df). split; [reflexivity|].
    unfold strip_columns. cbn [columns rows].
    split; [|split; [apply length_fmap | reflexivity]].
    apply Forall_forall. intros label Hin.
    apply list_elem_of_fmap in Hin as (raw & -> & _). apply strip_idempotent.
  - unfold strip_columns. cbn [columns rows text_columns]. f_equal.
    rewrite <- list_fmap_compose. apply list_fmap_ext.
    intros i label _. apply strip_idempotent.
Qed.

End StripFacts.

(** *** The live page *)

Section LiveFacts.
Import DashboardLive DashboardLivePage.
Local Open Scope R_scope.

Local Abbreviation D := DashboardLive.calculate_estimated_solar_power.

Lemma dash_estimate_night (c u temp : R) (t : datetime) :
  hour_of t < 6 \/ 20 < hour_of t -> D c u t temp = 0.
Proof.
  intros Hn. unfold DashboardLive.calculate_estimated_solar_power. cbv zeta.
  rewrite (dash_time_factor_night _ Hn).
  rewrite Rmult_0_r, Rmult_0_l. apply Rmax_left. lra.
Qed.

Lemma dash_estimate_range (c u temp : R) (t : datetime) :
  0 <= c <= 100 -> 0 <= u -> 0 <= D c u t temp <= 5.
Proof.
  intros Hc Hu. unfold DashboardLive.calculate_estimated_solar_power,
    DashboardLive.max_power. cbv zeta.
  split; [apply Rmax_l|].
  apply Rle_trans with 5.0; [|lra].
  apply clamp_le_nameplate.
  - lra.
  - now apply cloud_factor_range.
  - apply uv_factor_range; lra.
  - apply dash_time_factor_range.
  - apply temp_factor_le_1.
Qed.

(** X11. On the live page, for a clock with minutes from 0 to 59, the sun
    status "Night" implies an estimate of exactly 0.  The converse fails in
    the last hour: from 20:01 to 20:59 the status still reads "Daylight"
    (it looks at the hour alone) while the estimate, which uses
    hour + minute/60, is already 0. *)
Theorem X11_sun_status_and_estimate
    (c u temp : R) (t : datetime) :
  (0 <= dt_minute t < 60)%Z ->
  (sun_position t = Night -> D c u t temp = 0) /\
  (dt_hour t = 20%Z -> (0 < dt_minute t)%Z ->
   sun_position t = Daylight /\ D c u t temp = 0).
Proof.
  intros [Hm0 Hm60].
  apply IZR_le in Hm0. apply IZR_lt in Hm60.
  split.
  - unfold sun_position. cbv zeta. intros Hs. apply dash_estimate_night.
    unfold hour_of.
    destruct (Z_le_dec 6 (dt_hour t)) as [H6|H6].
    + destruct (Z_le_dec (dt_hour t) 20) as [H20|H20]; [discriminate|].
      right. assert (21 <= dt_hour t)%Z as H by lia.
      apply IZR_le in H. lra.
    + left. assert (dt_hour t <= 5)%Z as H by lia.
      apply IZR_le in H. lra.
  - intros Hh Hm. split.
    + unfold sun_position. rewrite Hh. reflexivity.
    + apply dash_estimate_night. right. unfold hour_of. rewrite Hh.
      apply IZR_lt in Hm. lra.
Qed.

Lemma X11_witness :
  let t := {| dt_hour := 20; dt_minute := 30 |} in
  sun_position t = Daylight /\ D 0 11 t 25 = 0 /\
  (sun_position {| dt_hour := 4; dt_minute := 59 |} = Night ->
   D 0 11 {| dt_hour := 4; dt_minute := 59 |} 25 = 0).
Proof.
  intros t.
  destruct (X11_sun_status_and_estimate 0 11 25 t) as [_ H]; [simpl; lia|].
  destruct (X11_sun_status_and_estimate 0 11 25
              {| dt_hour := 4; dt_minute := 59 |}) as [Hn _]; [simpl; lia|].
  destruct H as [Hs Hd]; [reflexivity | simpl; lia |].
  split; [exact Hs|]. split; [exact Hd | exact Hn].
Defined.

(** X12. On the live page, when the body gives a cloud cover between 0 and
    100 (or none) and the UV index is not negative, the "capacity" figure
    lies between 0 and 100 percent and the shown efficiency is
    (100 - cloud cover) * 0.85, between 0 and 85: the cap at 100 is never
    the smaller of the two.  Whatever the cloud cover, the shown
    efficiency is at most 100. *)
Theorem X12_live_page_percentages
    (weather_data : ExporterLive.weather_json) (uv_data : option (option R))
    (current_time : datetime) :
  let cloud_cover :=
    ExporterLive.get (ExporterLive.clouds_all weather_data) 0 in
  0 <= cloud_cover <= 100 ->
  0 <= uv_index_of uv_data ->
  0 <= capacity_percent (estimated_power weather_data uv_data current_time)
    <= 100 /\
  shown_efficiency cloud_cover = (100 - cloud_cover) * 0.85 /\
  0 <= shown_efficiency cloud_cover <= 85 /\
  (forall c, shown_efficiency c <= 100).
Proof.
  intros cloud_cover Hc Hu.
  pose proof (dash_estimate_range cloud_cover (uv_index_of uv_data)
                (ExporterLive.get (ExporterLive.main_temp weather_data) 25)
                current_time Hc Hu) as Hp.
  assert (He : shown_efficiency cloud_cover = (100 - cloud_cover) * 0.85).
  { unfold shown_efficiency, efficiency. apply Rmin_left. lra. }
  split; [|split; [exact He|split]].
  - unfold capacity_percent, estimated_power. cbv zeta.
    fold cloud_cover. lra.
  - rewrite He. lra.
  - intros c. unfold shown_efficiency. apply Rmin_r.
Qed.

Lemma X12_witness :
  let weather_data := {| ExporterLive.clouds_all := Some 20;
                         ExporterLive.main_temp := Some 31;
                         ExporterLive.main_humidity := None;
                         ExporterLive.wind_speed := None |} in
  0 <= capacity_percent
         (estimated_power weather_data (Some (Some 7))
            {| dt_hour := 11; dt_minute := 15 |}) <= 100 /\
  shown_efficiency 20 = 68.
Proof.
  intros weather_data.
  destruct (X12_live_page_percentages weather_data (Some (Some 7))
              {| dt_hour := 11; dt_minute := 15 |})
    as (Hcap & He & _); [simpl; lra | simpl; lra |].
  split; [exact Hcap|]. simpl in He. rewrite He. lra.
Defined.

(** X13. When the UV request failed or its body has no [value], the live
    page takes UV index 5, and for a cloud cover between 0 and 100 (or
    none) its estimate is at most 2.5 kW, half the nameplate. *)
Theorem X13_live_page_without_uv
    (weather_data : ExporterLive.weather_json) (uv_data : option (option R))
    (current_time : datetime) :
  let cloud_cover :=
    ExporterLive.get (ExporterLive.clouds_all weather_data) 0 in
  uv_data = None \/ uv_data = Some None ->
  0 <= cloud_cover <= 100 ->
  uv_index_of uv_data = 5 /\
  0 <= estimated_power weather_data uv_data current_time <= 2.5.
Proof.
  intros cloud_cover Huv Hc.
  assert (H5 : uv_index_of uv_data = 5) by (destruct Huv as [->| ->]; reflexivity).
  split; [exact H5|].
  unfold estimated_power. cbv zeta. rewrite H5. fold cloud_cover.
  unfold DashboardLive.calculate_estimated_solar_power,
    DashboardLive.max_power. cbv zeta.
  split; [apply Rmax_l|].
  rewrite (Rmin_left (5 / 10) 1.0) by lra.
  set (F := time_factor _). set (T := 1 - _).
  replace (5.0 * ((100 - cloud_cover) / 100) * (5 / 10) * F * T)
    with (2.5 * ((100 - cloud_cover) / 100) * 1 * F * T) by lra.
  apply clamp_le_nameplate; try lra.
  - apply dash_time_factor_range.
  - apply temp_factor_le_1.
Qed.

Lemma X13_witness :
  let weather_data := {| ExporterLive.clouds_all := None;
                         ExporterLive.main_temp := None;
                         ExporterLive.main_humidity := None;
                         ExporterLive.wind_speed := None |} in
  0 <= estimated_power weather_data None {| dt_hour := 13; dt_minute := 0 |}
    <= 2.5.
Proof.
  intros weather_data.
  apply (X13_live_page_without_uv weather_data None
           {| dt_hour := 13; dt_minute := 0 |}); [now left | simpl; lra].
Defined.

(** X14. The forecast column has one estimate per entry of the forecast
    list, but never more than 40; when the UV index is not negative and
    every entry reports a cloud cover between 0 and 100, every estimate in
    it lies between 0 and 5 kW. *)
Theorem X14_forecast_column
    (uv_index : R) (forecast_list : list forecast_item) :
  0 <= uv_index ->
  Forall (fun item => 0 <= item_clouds item <= 100) forecast_list ->
  length (forecast_power uv_index forecast_list)
  = Nat.min 40 (length forecast_list) /\
  Forall (fun p => 0 <= p <= 5) (forecast_power uv_index forecast_list).
Proof.
  intros Hu Hall. unfold forecast_power. split.
  - rewrite length_map. apply length_take.
  - change (map ?f ?l) with (f <$> l). apply Forall_fmap.
    eapply Forall_impl; [apply Forall_take, Hall|].
    intros item Hc. simpl. now apply dash_estimate_range.
Qed.

Lemma X14_witness :
  let item := {| item_datetime := {| dt_hour := 12; dt_minute := 0 |};
                 item_temp := 18; item_clouds := 35 |} in
  length (forecast_power 5 (replicate 50 item)) = 40%nat /\
  Forall (fun p => 0 <= p <= 5) (forecast_power 5 (replicate 50 item)).
Proof.
  intros item.
  destruct (X14_forecast_column 5 (replicate 50 item)) as [Hl Hf].
  - lra.
  - apply Forall_replicate. simpl. lra.
  - split; [|exact Hf]. rewrite Hl. reflexivity.
Defined.

End LiveFacts.

(** *** Grouping and the daily-yield table *)

Section GroupbyFacts.
Import Groupby.
Context {A : Type} (key : A -> Z).

Lemma group_insert_keys (k : Z) (a : A) (groups : list (Z * list A)) (k' : Z) :
  k' ∈ (group_insert k a groups).*1 <-> k' = k \/ k' ∈ groups.*1.
Proof.
  induction groups as [|[k0 ms] rest IH]; simpl.
  - rewrite list_elem_of_singleton, elem_of_nil. tauto.
  - destruct (Z.ltb_spec k k0); [|destruct (Z.eqb_spec k k0)]; simpl.
    + rewrite !elem_of_cons. simpl. tauto.
    + subst k0. rewrite !elem_of_cons. tauto.
    + rewrite !elem_of_cons, IH. tauto.
Qed.

Lemma group_insert_well (a : A) (groups : list (Z * list A)) :
  well_grouped key groups -> well_grouped key (group_insert (key a) a groups).
Proof.
  set (k := key a). intros [Hs Hf].
  induction groups as [|[k0 ms] rest IH]; simpl.
  - split; repeat constructor. discriminate.
  - simpl in Hs. apply StronglySorted_inv in Hs as [Hs Hlt].
    apply Forall_cons in Hf as [[Hne Hk0] Hf]. simpl in Hne, Hk0.
    destruct (Z.ltb_spec k k0); [|destruct (Z.eqb_spec k k0)].
    + split.
      * simpl. constructor; [constructor; assumption|].
        constructor; [assumption|].
        eapply Forall_impl; [exact Hlt|]. intros; simpl in *; lia.
      * constructor; [split; [discriminate | repeat constructor]|].
        constructor; [split; assumption | assumption].
    + subst k0. split.
      * simpl. constructor; assumption.
      * constructor; [|assumption]. simpl. split.
        -- intros E. apply app_eq_nil in E as [_ E]. discriminate.
        -- apply Forall_app. split; [assumption | repeat constructor].
    + destruct (IH Hs Hf) as [Hs' Hf']. split.
      * simpl. constructor; [assumption|].
        apply Forall_forall. intros k' Hin.
        apply group_insert_keys in Hin as [->|Hin]; [lia|].
        rewrite Forall_forall in Hlt. now apply Hlt.
      * constructor; [split; assumption | assumption].
Qed.

Lemma group_insert_perm (k : Z) (a : A) (groups : list (Z * list A)) :
  concat (group_insert k a groups).*2 ≡ₚ a :: concat groups.*2.
Proof.
  induction groups as [|[k0 ms] rest IH]; simpl; [reflexivity|].
  destruct (Z.ltb_spec k k0); [|destruct (Z.eqb_spec k k0)]; simpl.
  - reflexivity.
  - rewrite <- app_assoc. simpl. symmetry. apply Permutation_middle.
  - rewrite IH. symmetry. apply Permutation_middle.
Qed.

Lemma groupby_from (groups : list (Z * list A)) (rows : list A) :
  well_grouped key groups ->
  let result := foldl (fun gs a => group_insert (key a) a gs) groups rows in
  well_grouped key result /\
  concat result.*2 ≡ₚ concat groups.*2 ++ rows /\
  (forall k, k ∈ result.*1 <-> k ∈ groups.*1 \/ k ∈ key <$> rows).
Proof.
  revert groups. induction rows as [|a rows IH]; intros groups Hw; simpl.
  - split; [exact Hw|]. split; [now rewrite app_nil_r|].
    intros k. rewrite elem_of_nil. tauto.
  - destruct (IH (group_insert (key a) a groups) (group_insert_well a groups Hw))
      as (Hw' & Hp & Hk).
    split; [exact Hw'|]. split.
    + rewrite Hp, group_insert_perm. simpl. apply Permutation_middle.
    + intros k. rewrite Hk, group_insert_keys, elem_of_cons. tauto.
Qed.

Lemma groupby_spec (rows : list A) :
  well_grouped key (groupby key rows) /\
  concat (groupby key rows).*2 ≡ₚ rows /\
  (forall k, k ∈ (groupby key rows).*1 <-> k ∈ key <$> rows).
Proof.
  destruct (groupby_from [] rows) as (Hw & Hp & Hk).
  - split; constructor.
  - split; [exact Hw|]. split; [exact Hp|].
    intros k. rewrite (Hk k). simpl. rewrite elem_of_nil. tauto.
Qed.

End GroupbyFacts.

Section DailyYieldFacts.
Import Pandas Groupby DashboardDaily.
Local Open Scope Q_scope.

Lemma sum_app (l1 l2 : list Q) : sum (l1 ++ l2) == sum l1 + sum l2.
Proof.
  induction l1 as [|x l1 IH]; simpl.
  - now rewrite Qplus_0_l.
  - unfold sum in *. simpl. rewrite IH. now rewrite Qplus_assoc.
Qed.

Lemma sum_perm (l1 l2 : list Q) : l1 ≡ₚ l2 -> sum l1 == sum l2.
Proof.
  induction 1 as [|x l1 l2 _ IH|x y l|l1 l2 l3 _ IH1 _ IH2]; unfold sum in *; simpl.
  - reflexivity.
  - now rewrite IH.
  - rewrite !Qplus_assoc. now rewrite (Qplus_comm y x).
  - now rewrite IH1.
Qed.

Lemma sum_concat (ls : list (list Q)) : sum (concat ls) == sum (map sum ls).
Proof.
  induction ls as [|l ls IH]; [reflexivity|].
  simpl. rewrite sum_app, IH. reflexivity.
Qed.

Lemma sum_scale (c : Q) (l : list Q) :
  sum (map (fun x => x * c) l) == sum l * c.
Proof.
  induction l as [|x l IH]; unfold sum in *; simpl.
  - now rewrite Qmult_0_l.
  - rewrite IH. now rewrite Qmult_plus_distr_l.
Qed.

Lemma sum_bounds (lo hi : Q) (l : list Q) :
  Forall (fun x => lo <= x <= hi) l ->
  lo * inject_Z (Z.of_nat (length l)) <= sum l <=
  hi * inject_Z (Z.of_nat (length l)).
Proof.
  induction 1 as [|x l [Hlo Hhi] _ [IHlo IHhi]]; unfold sum in *.
  - simpl. rewrite !Qmult_0_r. split; apply Qle_refl.
  - cbn [length foldr]. rewrite Nat2Z.inj_succ, <- Z.add_1_r, inject_Z_plus.
    change (inject_Z 1) with 1. rewrite !Qmult_plus_distr_r, !Qmult_1_r.
    split.
    + rewrite (Qplus_comm x). now apply Qplus_le_compat.
    + rewrite (Qplus_comm x). now apply Qplus_le_compat.
Qed.

Lemma mean_bounds (lo hi : Q) (l : list Q) :
  l <> [] -> Forall (fun x => lo <= x <= hi) l -> lo <= mean l <= hi.
Proof.
  intros Hne Hall. destruct (sum_bounds lo hi l Hall) as [Hlo Hhi].
  assert (Hn : 0 < inject_Z (Z.of_nat (length l))).
  { destruct l; [contradiction|]. cbn [length].
    rewrite <- (Zlt_Qlt 0). lia. }
  unfold mean. split.
  - now apply Qle_shift_div_l.
  - now apply Qle_shift_div_r.
Qed.

Lemma sorted_keys_NoDup (keys : list Z) :
  StronglySorted Z.lt keys -> NoDup keys.
Proof.
  induction 1 as [|k keys _ IH Hlt]; constructor; [|exact IH].
  intros Hin. rewrite Forall_forall in Hlt. specialize (Hlt k Hin). lia.
Qed.

Lemma daily_yield_hours (df : list loaded_row) :
  hourly_Hour <$> calculate_daily_yield df = (groupby Hour df).*1.
Proof.
  unfold calculate_daily_yield. change (map ?f ?l) with (f <$> l).
  rewrite <- list_fmap_compose. now apply list_fmap_ext.
Qed.

Lemma daily_yield_hours_NoDup (df : list loaded_row) :
  NoDup (hourly_Hour <$> calculate_daily_yield df).
Proof.
  rewrite daily_yield_hours.
  destruct (groupby_spec Hour df) as ([Hs _] & _). now apply sorted_keys_NoDup.
Qed.

(** X15. The daily-yield table has exactly one row for every hour that
    occurs in the data, and lists the hours in increasing order. *)
Theorem X15_daily_yield_one_row_per_hour (df : list loaded_row) :
  StronglySorted Z.lt (hourly_Hour <$> calculate_daily_yield df) /\
  NoDup (hourly_Hour <$> calculate_daily_yield df) /\
  (forall h, h ∈ hourly_Hour <$> calculate_daily_yield df <-> h ∈ Hour <$> df).
Proof.
  rewrite daily_yield_hours.
  destruct (groupby_spec Hour df) as ([Hs _] & _ & Hk).
  split; [exact Hs|]. split; [now apply sorted_keys_NoDup | exact Hk].
Qed.

Lemma grouped_yield (groups : list (Z * list loaded_row)) :
  sum (map (fun g => sum (map Yield_Energy_kWh g.2)) groups)
  == sum (map Yield_Energy_kWh (concat groups.*2)).
Proof.
  rewrite concat_map, sum_concat.
  change (groups.*2) with (map snd groups). now rewrite !map_map.
Qed.

Lemma hourly_yield_total (df : list loaded_row) :
  sum (map hourly_Yield_Energy_kWh (calculate_daily_yield df))
  == total_yield df.
Proof.
  unfold calculate_daily_yield, total_yield. rewrite map_map. cbn [hourly_Yield_Energy_kWh].
  rewrite grouped_yield. apply sum_perm.
  destruct (groupby_spec Hour df) as (_ & Hp & _).
  change (map ?f ?l) with (f <$> l). now rewrite Hp.
Qed.

(** X16. The hourly table is consistent with the day's totals shown on the
    same page: its yields add up to the total yield, its exported energies
    to the total exported (40 percent) and its self-use energies to the
    total self-use (60 percent); in every row exported plus self-use is
    the row's yield. *)
Theorem X16_hourly_split_adds_up (df : list loaded_row) :
  let hourly := calculate_daily_yield df in
  sum (map hourly_Yield_Energy_kWh hourly) == total_yield df /\
  sum (map Exported_Energy_kWh hourly)
    == Dashboard.total_exported (total_yield df) /\
  sum (map SelfUse_Energy_kWh hourly)
    == Dashboard.total_self_use (total_yield df) /\
  Forall (fun r => Exported_Energy_kWh r + SelfUse_Energy_kWh r
                   == hourly_Yield_Energy_kWh r) hourly.
Proof.
  intros hourly. pose proof (hourly_yield_total df) as Ht. fold hourly in Ht.
  split; [exact Ht|]. split; [|split].
  - unfold Dashboard.total_exported. rewrite <- Ht.
    rewrite <- sum_scale. unfold hourly, calculate_daily_yield.
    rewrite !map_map. reflexivity.
  - unfold Dashboard.total_self_use. rewrite <- Ht.
    rewrite <- sum_scale. unfold hourly, calculate_daily_yield.
    rewrite !map_map. reflexivity.
  - unfold hourly, calculate_daily_yield. apply Forall_forall.
    intros r Hr. apply list_elem_of_In, in_map_iff in Hr as (g & <- & _).
    cbn [Exported_Energy_kWh SelfUse_Energy_kWh hourly_Yield_Energy_kWh].
    field.
Qed.

(** X17. Every group the hourly mean is taken over has at least one row,
    so the number of rows the mean divides by is never zero; and the
    hourly mean of the AC power stays within any bounds that hold for
    every row of the data. *)
Theorem X17_hourly_mean_within_row_bounds
    (lo hi : Q) (df : list loaded_row) :
  Forall (fun r => lo <= AC_Power_kW r <= hi) df ->
  Forall (fun group => (0 < length (map AC_Power_kW group.2))%nat)
         (groupby Hour df) /\
  Forall (fun r => lo <= hourly_AC_Power_kW r <= hi)
         (calculate_daily_yield df).
Proof.
  intros Hall. unfold calculate_daily_yield.
  destruct (groupby_spec Hour df) as ([_ Hf] & Hp & _).
  split.
  { apply Forall_forall. intros g Hg.
    rewrite Forall_forall in Hf. destruct (Hf g Hg) as [Hne _].
    rewrite length_map. destruct g.2; [contradiction | simpl; lia]. }
  apply Forall_forall. intros r Hr.
  apply list_elem_of_In, in_map_iff in Hr as (g & <- & Hg).
  cbn [hourly_AC_Power_kW].
  rewrite Forall_forall in Hf. destruct (Hf g) as [Hne _];
    [now apply list_elem_of_In|].
  apply mean_bounds.
  - intros E. apply map_eq_nil in E. contradiction.
  - apply Forall_forall. intros x Hx.
    apply list_elem_of_In, in_map_iff in Hx as (a & <- & Ha).
    rewrite Forall_forall in Hall. apply Hall.
    rewrite <- Hp. apply list_elem_of_In, in_concat.
    exists g.2. split; [|exact Ha].
    change (groupby Hour df).*2 with (map snd (groupby Hour df)).
    now apply in_map.
Qed.

Lemma X17_witness :
  let df := [ {| Hour := 9; Yield_Energy_kWh := 1; Total_DC_Power_W := 500;
                 AC_Power_kW := 0.45 |};
              {| Hour := 10; Yield_Energy_kWh := 2; Total_DC_Power_W := 900;
                 AC_Power_kW := 0.8 |};
              {| Hour := 9; Yield_Energy_kWh := 1.5; Total_DC_Power_W := 700;
                 AC_Power_kW := 0.65 |} ] in
  Forall (fun group => (0 < length (map AC_Power_kW group.2))%nat)
         (groupby Hour df) /\
  Forall (fun r => 0 <= hourly_AC_Power_kW r <= 5) (calculate_daily_yield df).
Proof.
  intros df. apply X17_hourly_mean_within_row_bounds.
  repeat constructor; discriminate.
Defined.

(** X18. The bar chart of the daily yield shows at most seven bars: the
    rows it picks all have an hour among 6, 8, 10, 12, 14, 16 and 18, and
    no hour is picked twice. *)
Theorem X18_display_rows (df : list loaded_row) :
  let shown := display_data (calculate_daily_yield df) in
  (length shown <= 7)%nat /\
  NoDup (hourly_Hour <$> shown) /\
  Forall (fun r => hourly_Hour r ∈ display_hours) shown.
Proof.
  intros shown.
  assert (Hnd : NoDup (hourly_Hour <$> shown)).
  { apply sublist_NoDup with (hourly_Hour <$> calculate_daily_yield df).
    - apply daily_yield_hours_NoDup.
    - apply fmap_sublist, sublist_filter. }
  assert (Hin : Forall (fun r => hourly_Hour r ∈ display_hours) shown).
  { apply Forall_forall. intros r Hr.
    now apply list_elem_of_filter in Hr as [Hr _]. }
  split; [|split; assumption].
  rewrite <- (length_fmap hourly_Hour).
  change 7%nat with (length display_hours).
  apply submseteq_length, NoDup_submseteq; [exact Hnd|].
  intros h Hh. apply list_elem_of_fmap in Hh as (r & -> & Hr).
  rewrite Forall_forall in Hin. now apply Hin.
Qed.

Lemma append_length (s t : string) :
  String.length (s +:+ t) = (String.length s + String.length t)%nat.
Proof. induction s as [|a s IH]; simpl; [reflexivity | now rewrite IH]. Qed.

Lemma append_inj_same_suffix_length (s1 s2 t1 t2 : string) :
  String.length t1 = String.length t2 ->
  s1 +:+ t1 = s2 +:+ t2 -> s1 = s2 /\ t1 = t2.
Proof.
  intros Hlen. revert s2. induction s1 as [|a s1 IH]; intros [|b s2] H; simpl in H.
  - now split.
  - exfalso. apply (f_equal String.length) in H. simpl in H.
    rewrite !append_length in H. simpl in H. lia.
  - exfalso. apply (f_equal String.length) in H. simpl in H.
    rewrite !append_length in H. simpl in H. lia.
  - injection H as -> H. destruct (IH s2 H) as [-> ->]. now split.
Qed.

(** X19. The time labels of the daily-yield table tell the hours apart:
    two hours with the same label are the same hour, and the label ends in
    "am" exactly for the hours below 12. *)
Theorem X19_time_label_injective (x y : Z) :
  (time_label x = time_label y -> x = y) /\
  (time_label x = pretty x +:+ " am" <-> (x < 12)%Z) /\
  (time_label x = pretty x +:+ " pm" <-> (12 <= x)%Z).
Proof.
  unfold time_label. split; [|split].
  - intros H.
    apply append_inj_same_suffix_length in H as [H _].
    + now apply (inj pretty) in H.
    + destruct (x <? 12)%Z, (y <? 12)%Z; reflexivity.
  - destruct (Z.ltb_spec x 12); split; intros H'; try reflexivity; try lia.
    apply append_inj_same_suffix_length in H' as [_ H']; [discriminate|reflexivity].
  - destruct (Z.ltb_spec x 12); split; intros H'; try reflexivity; try lia.
    apply append_inj_same_suffix_length in H' as [_ H']; [discriminate|reflexivity].
Qed.

Lemma X19_witness :
  time_label 9 = "9 am"%string /\ time_label 14 = "14 pm"%string /\
  (time_label 9 = time_label 9 -> 9%Z = 9%Z).
Proof.
  split; [reflexivity|]. split; [reflexivity|].
  apply (X19_time_label_injective 9 9).
Defined.

End DailyYieldFacts.

(** *** The live page's daily energy *)

Section LiveDailyFacts.
Import DashboardLive DashboardLivePage DashboardLiveDaily Groupby.
Local Open Scope R_scope.

Lemma Rsum_app (l1 l2 : list R) : Rsum (l1 ++ l2) = Rsum l1 + Rsum l2.
Proof.
  unfold Rsum. induction l1 as [|x l1 IH]; simpl; [lra | rewrite IH; lra].
Qed.

Lemma Rsum_perm (l1 l2 : list R) : l1 ≡ₚ l2 -> Rsum l1 = Rsum l2.
Proof.
  unfold Rsum.
  induction 1 as [|x l1 l2 _ IH|x y l|l1 l2 l3 _ IH1 _ IH2]; simpl; lra.
Qed.

Lemma Rsum_concat (ls : list (list R)) : Rsum (concat ls) = Rsum (map Rsum ls).
Proof.
  induction ls as [|l ls IH]; [reflexivity|].
  simpl. rewrite Rsum_app, IH. reflexivity.
Qed.

Lemma Rsum_scale (c : R) (l : list R) :
  Rsum (map (fun x => x * c) l) = Rsum l * c.
Proof.
  unfold Rsum. induction l as [|x l IH]; simpl; [lra | rewrite IH; lra].
Qed.

Lemma Rsum_bounds (hi : R) (l : list R) :
  Forall (fun x => 0 <= x <= hi) l ->
  0 <= Rsum l <= hi * INR (length l).
Proof.
  unfold Rsum. induction 1 as [|x l [H0 Hhi] _ IH].
  - simpl. lra.
  - cbn [length foldr]. rewrite S_INR. lra.
Qed.

Lemma forecast_df_power (uv_index : R) (forecast_list : list (Z * forecast_item)) :
  map estimated_power_kw (forecast_df uv_index forecast_list)
  = forecast_power uv_index forecast_list.*2.
Proof.
  unfold forecast_df, forecast_power. rewrite map_map. cbn [estimated_power_kw].
  change (forecast_list.*2) with (snd <$> forecast_list).
  rewrite <- fmap_take. change (?f <$> ?l) with (map f l).
  now rewrite map_map.
Qed.

(** X20. The daily energy chart of the live page has one bar per calendar
    day of the forecast, in date order.  When the UV index is not negative
    and every entry reports a cloud cover between 0 and 100, no bar is
    negative, and the bars add up to 3/1000 of the sum of the forecast
    estimates, which is at most 0.6. *)
Theorem X20_daily_energy_bars
    (uv_index : R) (forecast_list : list (Z * forecast_item)) :
  0 <= uv_index ->
  Forall (fun entry => 0 <= item_clouds entry.2 <= 100) forecast_list ->
  let bars := daily_energy (forecast_df uv_index forecast_list) in
  StronglySorted Z.lt bars.*1 /\
  (forall d, d ∈ bars.*1 <-> d ∈ (take 40 forecast_list).*1) /\
  Forall (fun bar => 0 <= bar.2) bars /\
  Rsum bars.*2 = Rsum (forecast_power uv_index forecast_list.*2) * 3 / 1000 /\
  Rsum bars.*2 <= 0.6.
Proof.
  intros Hu Hall bars.
  set (df := forecast_df uv_index forecast_list) in *.
  destruct (groupby_spec date df) as ([Hs Hf] & Hp & Hk).
  assert (Hrange : Forall (fun r => 0 <= estimated_power_kw r <= 5) df).
  { unfold df, forecast_df. change (map ?f ?l) with (f <$> l).
    apply Forall_fmap. eapply Forall_impl; [apply Forall_take, Hall|].
    intros entry Hc. simpl. now apply dash_estimate_range. }
  assert (Hkeys : bars.*1 = (groupby date df).*1).
  { unfold bars, daily_energy. change (map ?f ?l) with (f <$> l).
    rewrite <- list_fmap_compose. now apply list_fmap_ext. }
  assert (Hsum : Rsum bars.*2 = Rsum (map estimated_power_kw df) * 3 / 1000).
  { unfold bars, daily_energy.
    change (map ?f ?l).*2 with (snd <$> (f <$> l)).
    rewrite <- list_fmap_compose.
    transitivity
      (Rsum (map (fun x => x * (3 / 1000))
               (map Rsum (map (map estimated_power_kw) (groupby date df).*2)))).
    { f_equal. change ((groupby date df).*2) with (map snd (groupby date df)).
      rewrite !map_map. apply map_ext. intros g. simpl. lra. }
    rewrite Rsum_scale, <- Rsum_concat, <- concat_map.
    rewrite (Rsum_perm _ (map estimated_power_kw df)).
    - lra.
    - change (map ?f ?l) with (f <$> l). now rewrite Hp. }
  split; [now rewrite Hkeys|]. split; [|split; [|split]].
  - intros d. rewrite Hkeys, Hk. unfold df, forecast_df.
    change (map ?f ?l) with (f <$> l). rewrite <- list_fmap_compose.
    reflexivity.
  - unfold bars, daily_energy. apply Forall_forall. intros bar Hb.
    apply list_elem_of_In, in_map_iff in Hb as (g & <- & Hg). simpl.
    assert (Hg5 : Forall (fun x => 0 <= x <= 5) (map estimated_power_kw g.2)).
    { change (map ?f ?l) with (f <$> l). apply Forall_fmap.
      apply Forall_forall. intros r Hr. simpl.
      rewrite Forall_forall in Hrange. apply Hrange.
      rewrite <- Hp. apply list_elem_of_In, in_concat. exists g.2.
      split; [|now apply list_elem_of_In].
      change ((groupby date df).*2) with (map snd (groupby date df)).
      now apply in_map. }
    destruct (Rsum_bounds 5 _ Hg5) as [H0 _]. lra.
  - rewrite Hsum. unfold df. now rewrite forecast_df_power.
  - rewrite Hsum.
    assert (H5 : Forall (fun x => 0 <= x <= 5) (map estimated_power_kw df)).
    { change (map ?f ?l) with (f <$> l). now apply Forall_fmap. }
    destruct (Rsum_bounds 5 _ H5) as [_ Hhi].
    assert (Hlen : INR (length (map estimated_power_kw df)) <= 40).
    { rewrite length_map. unfold df, forecast_df. rewrite length_map, length_take.
      apply Rle_trans with (INR 40); [apply le_INR; lia|].
      rewrite INR_IZR_INZ. change (Z.of_nat 40) with 40%Z. lra. }
    lra.
Qed.

Lemma X20_witness :
  let entry d h c :=
    (d, {| item_datetime := {| dt_hour := h; dt_minute := 0 |};
           item_temp := 20; item_clouds := c |}) in
  let forecast_list := [entry 2%Z 12%Z 30; entry 1%Z 15%Z 80; entry 2%Z 15%Z 0] in
  let bars := daily_energy (forecast_df 5 forecast_list) in
  bars.*1 = [1%Z; 2%Z] /\ Forall (fun bar => 0 <= bar.2) bars /\
  Rsum bars.*2 <= 0.6.
Proof.
  intros entry forecast_list bars.
  destruct (X20_daily_energy_bars 5 forecast_list) as (_ & _ & H0 & _ & Hle).
  - lra.
  - repeat constructor; simpl; lra.
  - split; [reflexivity|]. split; assumption.
Defined.

End LiveDailyFacts.
